(** * A shallow embedding of the running-coach dashboard (src/dashboard.py)

    The dashboard is one Python script: a handful of helper functions
    (goal persistence, activity fetch, pace arithmetic, plan generation,
    keyword responder) followed by the top-level render pass.

    Conventions of the embedding.
    - Python values that come from JSON or are handled dynamically are
      [pyval]; the goal dictionary built by the script has a fixed set of
      keys and is the record [goal].
    - A finite Python float is an exact rational ([Q]); binary64 rounding is
      not modelled.  [inf], [-inf] and [nan] are kept, because the script
      tests for [float('inf')] and pandas yields [nan] for an empty mean.
      Python's [==] on numbers is [Qeq], written with [Qeq_bool].
    - Python [str] is a byte string (UTF-8); only ASCII letters are
      lower-cased, which is all the keyword matching can observe.
    - Exceptions are values of [exn]; code that can raise returns [result].
    - Library calls whose behaviour is fixed by their own documentation
      ([json.dump]/[json.load], [datetime.strptime]) are the methods of the
      class [Runtime]; [ref_runtime] is a reference implementation. *)

From Stdlib Require Import ZArith QArith Qround Lqa String Ascii List Lia.
From Stdlib Require Import DecimalString DecimalPos DecimalFacts.
From stdpp Require Import gmap strings.

Set Warnings "-register-all".
Set Warnings "-notation-overridden".
Set Default Proof Using "Type".

(* ------------------------------------------------------------------ *)
(** ** Exceptions and fallible computations *)

Inductive exn :=
| TypeError | ValueError | KeyError | AttributeError | OverflowError
| ZeroDivisionError | OSError | JSONDecodeError | ConnectionError
| StreamlitAPIException.

Inductive result (A : Type) :=
| Ok (a : A)
| Raise (e : exn).
Arguments Ok {A} a.
Arguments Raise {A} e.

Definition rbind {A B} (r : result A) (k : A -> result B) : result B :=
  match r with
  | Ok a => k a
  | Raise e => Raise e
  end.

(** [try: body / except: handler] with a bare [except], which catches
    every exception. *)
Definition try_except {A} (body : result A) (handler : result A) : result A :=
  match body with
  | Ok a => Ok a
  | Raise _ => handler
  end.

#[export] Instance result_ret : MRet result := fun A a => Ok a.
#[export] Instance result_bind : MBind result := fun A B k r => rbind r k.

Definition of_option {A} (e : exn) (o : option A) : result A :=
  match o with
  | Some a => Ok a
  | None => Raise e
  end.

(* ------------------------------------------------------------------ *)
(** ** Python values *)

Inductive pyfloat :=
| FFin (q : Q)
| FInf
| FNegInf
| FNan.

Inductive pyval :=
| PNone
| PBool (b : bool)
| PInt (z : Z)
| PFloat (f : pyfloat)
| PStr (s : string)
| PList (l : list pyval)
| PDict (d : list (string * pyval)).

(** Numeric view of a value: [bool] and [int] convert to float the way the
    arithmetic operators do; anything else is not a number. *)
Definition as_float (v : pyval) : option pyfloat :=
  match v with
  | PBool b => Some (FFin (if b then 1 else 0))
  | PInt z => Some (FFin (inject_Z z))
  | PFloat f => Some f
  | _ => None
  end.

(** [a == b] on floats: [nan] equals nothing. *)
Definition feq (a b : pyfloat) : bool :=
  match a, b with
  | FFin x, FFin y => Qeq_bool x y
  | FInf, FInf => true
  | FNegInf, FNegInf => true
  | _, _ => false
  end.

(** [v == x] for a numeric literal [x]: a non-number is simply unequal. *)
Definition py_eq_num (v : pyval) (x : pyfloat) : bool :=
  match as_float v with
  | Some f => feq f x
  | None => false
  end.

(** [v == s] for a string literal [s]. *)
Definition py_eq_str (v : pyval) (s : string) : bool :=
  match v with
  | PStr t => if string_dec t s then true else false
  | _ => false
  end.

(** [a < b] on floats. *)
Definition flt (a b : pyfloat) : bool :=
  match a, b with
  | FNan, _ | _, FNan => false
  | FFin x, FFin y => negb (Qle_bool y x)
  | FNegInf, FNegInf => false
  | FNegInf, _ => true
  | _, FNegInf => false
  | FInf, _ => false
  | _, FInf => true
  end.

(** [a / b]: true division. *)
Definition fdiv (a b : pyfloat) : result pyfloat :=
  match b with
  | FFin qb =>
      if Qeq_bool qb 0 then Raise ZeroDivisionError
      else match a with
           | FFin qa => Ok (FFin (qa / qb))
           | FInf => Ok (if Qle_bool 0 qb then FInf else FNegInf)
           | FNegInf => Ok (if Qle_bool 0 qb then FNegInf else FInf)
           | FNan => Ok FNan
           end
  | FNan => Ok FNan
  | FInf | FNegInf =>
      match a with
      | FFin _ => Ok (FFin 0)
      | _ => Ok FNan
      end
  end.

Definition py_truediv (a b : pyval) : result pyfloat :=
  match as_float a, as_float b with
  | Some x, Some y => fdiv x y
  | _, _ => Raise TypeError
  end.

(** [a // b] and [a % b] for a finite divisor [b]. *)
Definition ffloordiv (a : pyfloat) (b : Q) : result pyfloat :=
  if Qeq_bool b 0 then Raise ZeroDivisionError
  else match a with
       | FFin q => Ok (FFin (inject_Z (Qfloor (q / b))))
       | _ => Ok FNan
       end.

Definition fmod (a : pyfloat) (b : Q) : result pyfloat :=
  if Qeq_bool b 0 then Raise ZeroDivisionError
  else match a with
       | FFin q => Ok (FFin (q - b * inject_Z (Qfloor (q / b))))
       | _ => Ok FNan
       end.

(** [int(x)]: truncation towards zero. *)
Definition py_int (f : pyfloat) : result Z :=
  match f with
  | FFin q => Ok (if Qle_bool 0 q then Qfloor q else Qceiling q)
  | FInf | FNegInf => Raise OverflowError
  | FNan => Raise ValueError
  end.

(** Truthiness, as [if goal_data] and [if not runs] use it. *)
Definition py_truthy (v : pyval) : bool :=
  match v with
  | PNone => false
  | PBool b => b
  | PInt z => negb (z =? 0)%Z
  | PFloat f => negb (feq f (FFin 0))
  | PStr s => negb (if string_dec s EmptyString then true else false)
  | PList l => match l with [] => false | _ => true end
  | PDict d => match d with [] => false | _ => true end
  end.

Fixpoint assoc (k : string) (d : list (string * pyval)) : option pyval :=
  match d with
  | [] => None
  | (k', v) :: d' => if string_dec k k' then Some v else assoc k d'
  end.

(** [v[k]] for a string key. *)
Definition py_getitem (v : pyval) (k : string) : result pyval :=
  match v with
  | PDict d => of_option KeyError (assoc k d)
  | _ => Raise TypeError
  end.

(** [v.get(k)]. *)
Definition py_get (v : pyval) (k : string) : result pyval :=
  match v with
  | PDict d => Ok (default PNone (assoc k d))
  | _ => Raise AttributeError
  end.

(* ------------------------------------------------------------------ *)
(** ** Text *)

(** [str(n)] for an [int]. *)
Definition str_of_Z (z : Z) : string := NilZero.string_of_int (Z.to_int z).

(** The format spec [{n:02d}]: zero-padded to width 2, sign included. *)
Definition format_02d (z : Z) : string :=
  if (z <? 0)%Z then str_of_Z z
  else if (z <? 10)%Z then "0" +:+ str_of_Z z
  else str_of_Z z.

Definition lower_ascii (c : ascii) : ascii :=
  let n := nat_of_ascii c in
  if (65 <=? n)%nat && (n <=? 90)%nat then ascii_of_nat (n + 32) else c.

(** [s.lower()]. *)
Fixpoint lower (s : string) : string :=
  match s with
  | EmptyString => EmptyString
  | String c s' => String (lower_ascii c) (lower s')
  end.

(** [pat in s]. *)
Fixpoint contains (pat s : string) : bool :=
  String.prefix pat s ||
  match s with
  | EmptyString => false
  | String _ s' => contains pat s'
  end.

(* ------------------------------------------------------------------ *)
(** ** Calendar dates ([datetime.date]) *)

Record date := mkdate { year : Z; month : Z; day : Z }.

Definition is_leap (y : Z) : bool :=
  ((y mod 4 =? 0) && (negb (y mod 100 =? 0) || (y mod 400 =? 0)))%Z.

Definition days_in_month (y m : Z) : Z :=
  if (m =? 2)%Z then (if is_leap y then 29 else 28)%Z
  else if ((m =? 4) || (m =? 6) || (m =? 9) || (m =? 11))%Z then 30%Z
  else 31%Z.

Definition days_before_year (y : Z) : Z :=
  let y1 := (y - 1)%Z in
  (y1 * 365 + y1 / 4 - y1 / 100 + y1 / 400)%Z.

Definition days_before_month (y m : Z) : Z :=
  fold_left Z.add
    (map (days_in_month y) (map Z.of_nat (seq 1 (Z.to_nat (m - 1))))) 0%Z.

(** [d.toordinal()]: day 1 is 0001-01-01. *)
Definition toordinal (d : date) : Z :=
  (days_before_year (year d) + days_before_month (year d) (month d) + day d)%Z.

(** [(a - b).days]. *)
Definition days_between (a b : date) : Z := (toordinal a - toordinal b)%Z.

Definition next_day (d : date) : date :=
  if (day d <? days_in_month (year d) (month d))%Z
  then mkdate (year d) (month d) (day d + 1)
  else if (month d <? 12)%Z then mkdate (year d) (month d + 1) 1
  else mkdate (year d + 1) 1 1.

(** [d + timedelta(days=n)] for [n >= 0]. *)
Definition add_days (d : date) (n : nat) : date := Nat.iter n next_day d.

Definition pad_left (width : nat) (s : string) : string :=
  string_of_list_ascii (repeat "0"%char (width - String.length s)) +:+ s.

(** [str(d)], the ISO form YYYY-MM-DD. *)
Definition date_str (d : date) : string :=
  pad_left 4 (str_of_Z (year d)) +:+ "-" +:+
  pad_left 2 (str_of_Z (month d)) +:+ "-" +:+
  pad_left 2 (str_of_Z (day d)).

(* ------------------------------------------------------------------ *)
(** ** The library interface

    [json_dumps v] is the text [json.dump] writes for [v]; [json_loads s]
    is what [json.load] returns on a file holding [s], [None] standing for
    a decoding error.  [strptime_hms s] is
    [datetime.strptime(s, "%H:%M:%S")] reduced to its hour, minute and
    second, and [strptime_ymd s] is
    [datetime.strptime(s, "%Y-%m-%d").date()]; [None] stands for
    [ValueError].  [py_str v] is [str(v)].

    The laws are the documented behaviour the proofs rely on: a dictionary
    with string keys and scalar values is read back unchanged, and the
    JSON document [null] decodes to [None]. *)

Definition json_scalar (v : pyval) : Prop :=
  match v with
  | PNone | PBool _ | PInt _ | PStr _ => True
  | PFloat f => f <> FNan
  | PList _ | PDict _ => False
  end.

Definition json_record (d : list (string * pyval)) : Prop :=
  NoDup (map fst d) /\ Forall (fun kv => json_scalar (snd kv)) d.

Class Runtime := {
  json_dumps : pyval -> string;
  json_loads : string -> option pyval;
  strptime_hms : string -> option (Z * Z * Z);
  strptime_ymd : string -> option date;
  py_str : pyval -> string;
  json_loads_dumps : forall d,
    json_record d -> json_loads (json_dumps (PDict d)) = Some (PDict d);
  json_loads_null : json_loads "null" = Some PNone;
  py_str_str : forall s, py_str (PStr s) = s
}.

(* ------------------------------------------------------------------ *)
(** ** Configuration *)

Definition GOAL_FILE : string := "goal.json".

Definition RACE_DISTANCES : list (string * pyval) :=
  [ ("5K", PInt 5);
    ("10K", PInt 10);
    ("Half Marathon", PFloat (FFin 21.0975));
    ("Marathon", PFloat (FFin 42.195)) ].

(* ------------------------------------------------------------------ *)
(** ** Helper functions *)

(** The goal dictionary of the script: its six keys, in source order. *)
Record goal := mkgoal {
  g_race_type : string;
  g_target_time : string;
  g_race_date : string;
  g_runs_per_week : Z;
  g_target_pace_sec : pyval;
  g_target_pace_formatted : string
}.

Definition goal_dict (g : goal) : pyval :=
  PDict [ ("race_type", PStr (g_race_type g));
          ("target_time", PStr (g_target_time g));
          ("race_date", PStr (g_race_date g));
          ("runs_per_week", PInt (g_runs_per_week g));
          ("target_pace_sec", g_target_pace_sec g);
          ("target_pace_formatted", PStr (g_target_pace_formatted g)) ].

Section GoalStore.
Context `{!Runtime}.

(** [open(path, "r")] followed by reading the whole file. *)
Definition open_read (path : string) (fs : gmap string string) : result string :=
  of_option OSError (fs !! path).

Definition json_load (text : string) : result pyval :=
  of_option JSONDecodeError (json_loads text).

(** [open(GOAL_FILE, "w")] truncates, [json.dump] writes the text. *)
Definition save_goal (goal_data : pyval) (fs : gmap string string)
  : gmap string string :=
  <[GOAL_FILE := json_dumps goal_data]> fs.

Definition load_goal (fs : gmap string string) : result pyval :=
  try_except
    (text ← open_read GOAL_FILE fs; json_load text)
    (Ok PNone).
End GoalStore.

Definition calculate_pace (moving_time distance_meters : pyval) : result pyval :=
  if py_eq_num distance_meters (FFin 0) then Ok (PInt 0)
  else
    km ← py_truediv distance_meters (PInt 1000);
    pace_sec ← py_truediv moving_time (PFloat km);
    Ok (PFloat pace_sec).

Definition seconds_to_pace (sec_per_km : pyval) : result string :=
  if py_eq_num sec_per_km (FFin 0) || py_eq_num sec_per_km FInf then Ok "-"
  else
    x ← of_option TypeError (as_float sec_per_km);
    q ← ffloordiv x 60;
    minutes ← py_int q;
    r ← fmod x 60;
    seconds ← py_int r;
    Ok (str_of_Z minutes +:+ ":" +:+ format_02d seconds +:+ " min/km").

(** [range(n)]. *)
Definition range (n : Z) : list Z := map Z.of_nat (seq 0 (Z.to_nat n)).

Definition NOT_ENOUGH_TIME : string :=
  "⚠️ Not enough time to generate a full training plan.".
Definition TAPER : string := "Race Week: Taper, 2 short easy runs".
Definition TEMPO : string := "Tempo Run (4-8 km at goal pace)".
Definition INTERVALS : string := "Intervals (e.g., 4x1km faster pace)".
Definition EASY : string := "1–2 Easy Runs (5–8 km)".

Definition long_run (week : Z) : string :=
  "Long Run (" +:+ str_of_Z (10 + week * 1) +:+ " to " +:+
  str_of_Z (14 + week * 1) +:+ " km)".

(** The body of the [for week in range(weeks_left)] loop: the list built
    in [week_plan] by successive [append]s. *)
Definition week_body (weeks_left runs_per_week week : Z) : list pyval :=
  let week_plan : list pyval := [] in
  if (week =? weeks_left - 1)%Z then
    week_plan ++ [PStr TAPER]
  else
    let week_plan := week_plan ++ [PStr (long_run week)] in
    let week_plan :=
      if (4 <=? runs_per_week)%Z then week_plan ++ [PStr TEMPO] else week_plan in
    let week_plan :=
      if (5 <=? runs_per_week)%Z then week_plan ++ [PStr INTERVALS] else week_plan in
    week_plan ++ [PStr EASY].

Definition generate_training_plan (today race_day : date) (runs_per_week : Z)
  : pyval :=
  let weeks_left := (days_between race_day today / 7)%Z in
  let plan : list pyval := [] in
  if (weeks_left <? 2)%Z then
    PList [PStr NOT_ENOUGH_TIME]
  else
    PList (fold_left
             (fun plan week => plan ++ [PList (week_body weeks_left runs_per_week week)])
             (range weeks_left) plan).

(** One row of the data frame built from the runs. *)
Record run_row := mkrow {
  name : pyval;
  date_ : pyval;
  distance_km : pyfloat;
  moving_time_min : pyfloat;
  pace_sec_per_km : pyfloat
}.

Definition fadd (a b : pyfloat) : pyfloat :=
  match a, b with
  | FNan, _ | _, FNan => FNan
  | FInf, FNegInf | FNegInf, FInf => FNan
  | FInf, _ | _, FInf => FInf
  | FNegInf, _ | _, FNegInf => FNegInf
  | FFin x, FFin y => FFin (x + y)
  end.

Definition is_nan (f : pyfloat) : bool :=
  match f with FNan => true | _ => false end.

(** [Series.mean()] of a float column: [nan] entries are skipped, and the
    mean of nothing is [nan]. *)
Definition series_mean (col : list pyfloat) : pyfloat :=
  let kept := List.filter (fun f => negb (is_nan f)) col in
  match kept with
  | [] => FNan
  | _ :: _ =>
      match fdiv (fold_left fadd kept (FFin 0))
                 (FFin (inject_Z (Z.of_nat (List.length kept)))) with
      | Ok m => m
      | Raise _ => FNan
      end
  end.

(** [a < b] where [a] is a float: [b] has to be a number. *)
Definition py_lt (a : pyfloat) (b : pyval) : result bool :=
  match as_float b with
  | Some y => Ok (flt a y)
  | None => Raise TypeError
  end.

Definition ENCOURAGING : string :=
  "✅ You're currently pacing faster than your goal! Maintain consistency.".
Definition BEHIND : string :=
  "⚡ You're slightly behind goal pace. Focus on tempo runs and sharpening your endurance.".
Definition NEXT_RUN : string :=
  "Recommended next run: 6–8 km easy run, or a moderate tempo run based on your energy levels.".
Definition FALLBACK : string :=
  "I'm a data-driven analyst. Please ask about pace, readiness, or training advice.".

Definition ai_analyst_response (question : string) (goal_data : goal)
    (recent_runs_df : list run_row) : result string :=
  if contains "pace" (lower question) then
    let avg_pace := series_mean (map pace_sec_per_km recent_runs_df) in
    avg_pace_formatted ← seconds_to_pace (PFloat avg_pace);
    Ok ("Your average recent pace is " +:+ avg_pace_formatted +:+
        ". Target pace for your goal is " +:+
        g_target_pace_formatted goal_data +:+ ".")
  else if contains "ready" (lower question) || contains "close" (lower question) then
    let avg_pace := series_mean (map pace_sec_per_km recent_runs_df) in
    faster ← py_lt avg_pace (g_target_pace_sec goal_data);
    if (faster : bool) then Ok ENCOURAGING else Ok BEHIND
  else if contains "next run" (lower question) then
    Ok NEXT_RUN
  else
    Ok FALLBACK.

(* ------------------------------------------------------------------ *)
(** ** The render pass

    One run of the script: it reads and writes the files, appends elements
    to the page, and ends normally, with an uncaught exception, or at
    [st.stop()]. *)

Inductive element :=
| Title (s : string)
| Header (s : string)
| Subheader (s : string)
| ErrorBox (s : string)
| WarningBox (s : string)
| InfoBox (s : string)
| Write (s : string)
| DataFrame (rows : list run_row)
| PyPlot (target_line : pyfloat) (label : string)
| Progress (value : pyfloat).

Record world := mkworld {
  files : gmap string string;
  screen : list element
}.

Inductive outcome (A : Type) :=
| Done (a : A)
| Failed (e : exn)
| Stopped.
Arguments Done {A} a.
Arguments Failed {A} e.
Arguments Stopped {A}.

Definition M (A : Type) : Type := world -> world * outcome A.

Definition Mret {A} (a : A) : M A := fun w => (w, Done a).

Definition Mbind {A B} (m : M A) (k : A -> M B) : M B :=
  fun w =>
    match m w with
    | (w', Done a) => k a w'
    | (w', Failed e) => (w', Failed e)
    | (w', Stopped) => (w', Stopped)
    end.

#[export] Instance M_ret : MRet M := @Mret.
#[export] Instance M_bind : MBind M := fun A B k m => Mbind m k.
#[export] Instance result_fmap : FMap result :=
  fun A B f r => match r with Ok a => Ok (f a) | Raise e => Raise e end.

Definition lift {A} (r : result A) : M A :=
  fun w => (w, match r with Ok a => Done a | Raise e => Failed e end).

Definition emit (e : element) : M unit :=
  fun w => (mkworld (files w) (screen w ++ [e]), Done tt).

(** [st.stop()]. *)
Definition st_stop {A} : M A := fun w => (w, Stopped).

Definition with_files (f : gmap string string -> gmap string string) : M unit :=
  fun w => (mkworld (f (files w)) (screen w), Done tt).

Definition read_files {A} (f : gmap string string -> result A) : M A :=
  fun w => lift (f (files w)) w.

(** An HTTP response as [requests] presents it. *)
Record response := mkresponse {
  status_code : Z;
  body : string
}.

Inductive race_choice := Pick5K | Pick10K | PickHalf | PickMarathon.
Inductive rpw_choice := Pick3 | Pick4 | Pick5 | Pick6.

Definition race_label (c : race_choice) : string :=
  match c with
  | Pick5K => "5K"
  | Pick10K => "10K"
  | PickHalf => "Half Marathon"
  | PickMarathon => "Marathon"
  end.

Definition rpw_value (c : rpw_choice) : Z :=
  match c with Pick3 => 3 | Pick4 => 4 | Pick5 => 5 | Pick6 => 6 end%Z.

(** What the script receives from outside during one run: the state of the
    sidebar widgets ([None] for a widget the user has not touched, which
    then shows its default), the question box, the secrets, the clock and
    the upstream API (a function of the bearer token). *)
Record session := mksession {
  pick_race_type : option race_choice;
  input_target_time : option string;
  pick_race_date : option date;
  pick_runs_per_week : option rpw_choice;
  user_question : string;
  secrets : gmap string string;
  today : date;
  api : string -> result response
}.

Definition RACE_OPTIONS : list string := ["5K"; "10K"; "Half Marathon"; "Marathon"].
Definition RPW_OPTIONS : list Z := [3; 4; 5; 6]%Z.

Fixpoint index_where {A} (p : A -> bool) (l : list A) : option nat :=
  match l with
  | [] => None
  | x :: l' => if p x then Some 0%nat else S <$> index_where p l'
  end.

(** [options.index(v)]. *)
Definition index_str (options : list string) (v : pyval) : result nat :=
  of_option ValueError (index_where (py_eq_str v) options).

Definition index_int (options : list Z) (v : pyval) : result nat :=
  of_option ValueError
    (index_where (fun o => py_eq_num v (FFin (inject_Z o))) options).

(** [st.sidebar.selectbox(label, options, index=index)]. *)
Definition selectbox {A} (options : list A) (index : nat) (pick : option A)
  : result A :=
  shown ← of_option StreamlitAPIException (options !! index);
  Ok (default shown pick).

(** Iteration over a value, as [for x in v] does it. *)
Definition py_iter (v : pyval) : result (list pyval) :=
  match v with
  | PList l => Ok l
  | PDict d => Ok (map (fun kv => PStr (fst kv)) d)
  | PStr s => Ok (map (fun c => PStr (String c EmptyString)) (list_ascii_of_string s))
  | _ => Raise TypeError
  end.

(** [v[:10]]. *)
Definition py_slice10 (v : pyval) : result pyval :=
  match v with
  | PStr s => Ok (PStr (substring 0 10 s))
  | PList l => Ok (PList (firstn 10 l))
  | _ => Raise TypeError
  end.

Definition float_or_zero (v : pyval) : pyfloat :=
  default (FFin 0) (as_float v).

Fixpoint mapM {A B} (f : A -> result B) (l : list A) : result (list B) :=
  match l with
  | [] => Ok []
  | x :: l' => y ← f x; ys ← mapM f l'; Ok (y :: ys)
  end.

Fixpoint forM_ {A} (f : A -> M unit) (l : list A) : M unit :=
  match l with
  | [] => Mret tt
  | x :: l' => Mbind (f x) (fun _ => forM_ f l')
  end.

Section Render.
Context `{!Runtime}.
Variable env : session.

Definition fetch_activities (access_token : string) : M pyval :=
  response ← lift (api env access_token);
  if negb (status_code response =? 200)%Z then
    _ ← emit (ErrorBox ("Failed to fetch activities from Strava (status code "
                        +:+ str_of_Z (status_code response) +:+ ")"));
    st_stop
  else
    lift (json_load (body response)).

(** The four sidebar widgets; the default of each is computed from the
    loaded goal before the widget is shown. *)
Definition sidebar (goal_data : pyval) : result (string * string * date * Z) :=
  index ← (if py_truthy goal_data
           then v ← py_getitem goal_data "race_type"; index_str RACE_OPTIONS v
           else Ok 2%nat);
  race_type ← selectbox RACE_OPTIONS index (race_label <$> pick_race_type env);
  value ← (if py_truthy goal_data
           then py_str <$> py_getitem goal_data "target_time"
           else Ok "1:45:00");
  let target_time_str := default value (input_target_time env) in
  value ← (if py_truthy goal_data
           then v ← py_getitem goal_data "race_date";
                match v with
                | PStr s => of_option ValueError (strptime_ymd s)
                | _ => Raise TypeError
                end
           else Ok (add_days (today env) 30));
  let race_date := default value (pick_race_date env) in
  index ← (if py_truthy goal_data
           then v ← py_getitem goal_data "runs_per_week"; index_int RPW_OPTIONS v
           else Ok 1%nat);
  runs_per_week ← selectbox RPW_OPTIONS index (rpw_value <$> pick_runs_per_week env);
  Ok (race_type, target_time_str, race_date, runs_per_week).

(** The [try] block that parses the target pace. *)
Definition parse_target_pace (target_time_str race_type : string)
  : result (pyval * string) :=
  t ← of_option ValueError (strptime_hms target_time_str);
  let '(hour, minute, second) := t in
  let total_seconds := (hour * 3600 + minute * 60 + second)%Z in
  race_distance_km ← of_option KeyError (assoc race_type RACE_DISTANCES);
  target_pace_sec ← py_truediv (PInt total_seconds) race_distance_km;
  target_pace_formatted ← seconds_to_pace (PFloat target_pace_sec);
  Ok (PFloat target_pace_sec, target_pace_formatted).

(** The [try]/[except] around it, and the goal dictionary. *)
Definition target_pace (target_time_str race_type : string) : pyval * string :=
  match parse_target_pace target_time_str race_type with
  | Ok r => r
  | Raise _ => (PNone, "Invalid format!")
  end.

Definition current_goal (race_type target_time_str : string) (race_date : date)
    (runs_per_week : Z) : goal :=
  let '(target_pace_sec, target_pace_formatted) :=
    target_pace target_time_str race_type in
  {| g_race_type := race_type;
     g_target_time := target_time_str;
     g_race_date := date_str race_date;
     g_runs_per_week := runs_per_week;
     g_target_pace_sec := target_pace_sec;
     g_target_pace_formatted := target_pace_formatted |}.

(** Lines 96-132: load, sidebar, recompute, save. *)
Definition goal_stage : M goal :=
  goal_data ← read_files load_goal;
  _ ← emit (Header "🏁 Set Your Goal");
  inputs ← lift (sidebar goal_data);
  let '(race_type, target_time_str, race_date, runs_per_week) := inputs in
  let current_goal_data :=
    current_goal race_type target_time_str race_date runs_per_week in
  _ ← with_files (save_goal (goal_dict current_goal_data));
  Mret current_goal_data.

(** [runs = [act for act in activities if act.get("type") == "Run"]]. *)
Fixpoint keep_runs (activities : list pyval) : result (list pyval) :=
  match activities with
  | [] => Ok []
  | act :: rest =>
      ty ← py_get act "type";
      runs ← keep_runs rest;
      Ok (if py_eq_str ty "Run" then act :: runs else runs)
  end.

(** The body of the loop that prepares the data frame. *)
Definition make_row (act : pyval) : result run_row :=
  distance ← py_getitem act "distance";
  dist_km ← py_truediv distance (PInt 1000);
  moving_time ← py_getitem act "moving_time";
  distance ← py_getitem act "distance";
  pace ← calculate_pace moving_time distance;
  name ← py_getitem act "name";
  start ← py_getitem act "start_date_local";
  date ← py_slice10 start;
  moving_time ← py_getitem act "moving_time";
  minutes ← py_truediv moving_time (PInt 60);
  Ok (mkrow name date dist_km minutes (float_or_zero pace)).

Definition write_week (iw : nat * pyval) : M unit :=
  _ ← emit (Write ("**Week " +:+ str_of_Z (Z.of_nat (fst iw) + 1) +:+ ":**"));
  workouts ← lift (py_iter (snd iw));
  forM_ (fun workout => emit (Write ("- " +:+ py_str workout))) workouts.

(** Lines 136-241. *)
Definition main_stage (current_goal_data : goal) : M unit :=
  _ ← emit (Title "🏃 AI Running Coach Dashboard");
  access_token ← lift (of_option KeyError (secrets env !! "access_token"));
  activities ← fetch_activities access_token;
  acts ← lift (py_iter activities);
  runs ← lift (keep_runs acts);
  _ ← (match runs with
       | [] => _ ← emit (WarningBox "No recent running activities found."); st_stop
       | _ :: _ => Mret tt
       end);
  df ← lift (mapM make_row runs);
  _ ← emit (Subheader "📄 Recent Runs");
  _ ← emit (DataFrame df);
  _ ← emit (Subheader "📈 Pace Trend Over Last 12 Weeks");
  (* the weekly grouping of the data frame only feeds the plotted series *)
  y ← lift (py_truediv (g_target_pace_sec current_goal_data) (PInt 60));
  _ ← emit (PyPlot y ("Target Pace (" +:+ g_target_pace_formatted current_goal_data +:+ ")"));
  let completed_long_runs :=
    List.length (List.filter (fun r => flt (FFin 10) (distance_km r)) df) in
  race_day ← lift (of_option ValueError (strptime_ymd (g_race_date current_goal_data)));
  let weeks_to_race := (days_between race_day (today env) / 7)%Z in
  let expected_long_runs := Z.max 1 weeks_to_race in
  ratio ← lift (py_truediv (PInt (Z.of_nat completed_long_runs)) (PInt expected_long_runs));
  let training_load := if flt ratio (FFin 1) then ratio else FFin 1 in
  _ ← emit (Subheader "📊 Training Load Progress");
  _ ← emit (Progress training_load);
  _ ← emit (Subheader "🛠️ Training Plan");
  race_day ← lift (of_option ValueError (strptime_ymd (g_race_date current_goal_data)));
  let plan := generate_training_plan (today env) race_day (g_runs_per_week current_goal_data) in
  weeks ← lift (py_iter plan);
  _ ← forM_ write_week (imap (fun i week => (i, week)) weeks);
  _ ← emit (Subheader "🤖 Ask the AI Analyst");
  if negb (if string_dec (user_question env) EmptyString then true else false) then
    response ← lift (ai_analyst_response (user_question env) current_goal_data df);
    emit (InfoBox response)
  else Mret tt.

Definition render : M unit :=
  current_goal_data ← goal_stage;
  main_stage current_goal_data.
End Render.

(* ------------------------------------------------------------------ *)
(** ** A reference implementation of the library interface

    Text is ASCII-oriented: a byte outside the printable range is written
    as a [\u00XX] escape.  A finite float is an exact rational here and has
    no finite decimal expansion in general, so the writer prints it as
    [numerator/denominator]; the reader takes that form and plain decimal
    literals. *)

Definition is_digit (c : ascii) : bool :=
  let n := nat_of_ascii c in (48 <=? n)%nat && (n <=? 57)%nat.

Definition is_ws (c : ascii) : bool :=
  match c with
  | " "%char | "009"%char | "010"%char | "013"%char => true
  | _ => false
  end.

Fixpoint skip_ws (s : string) : string :=
  match s with
  | String c s' => if is_ws c then skip_ws s' else s
  | EmptyString => s
  end.

(** The longest prefix of digits, and what follows it. *)
Fixpoint span_digits (s : string) : string * string :=
  match s with
  | String c s' =>
      if is_digit c
      then let '(d, rest) := span_digits s' in (String c d, rest)
      else (EmptyString, s)
  | EmptyString => (EmptyString, EmptyString)
  end.

Definition nat_of_digits (s : string) : option Z :=
  Z.of_uint <$> NilZero.uint_of_string s.

(** The integer part of a JSON number: no leading zero. *)
Definition int_of_digits (s : string) : option Z :=
  match s with
  | String "0" (String _ _) => None
  | _ => nat_of_digits s
  end.

Definition hex_digit (n : nat) : ascii :=
  if (n <? 10)%nat then ascii_of_nat (48 + n) else ascii_of_nat (87 + n).

Definition hex_value (c : ascii) : option nat :=
  let n := nat_of_ascii c in
  if (48 <=? n)%nat && (n <=? 57)%nat then Some (n - 48)%nat
  else if (97 <=? n)%nat && (n <=? 102)%nat then Some (n - 87)%nat
  else if (65 <=? n)%nat && (n <=? 70)%nat then Some (n - 55)%nat
  else None.

(** One character of a JSON string, escaped as [json.dump] does with
    [ensure_ascii]. *)
Definition escape_char (c : ascii) : string :=
  match c with
  | "034"%char => String "\" (String "034" EmptyString)
  | "\"%char => String "\" (String "\" EmptyString)
  | "010"%char => String "\" (String "n" EmptyString)
  | "013"%char => String "\" (String "r" EmptyString)
  | "009"%char => String "\" (String "t" EmptyString)
  | "008"%char => String "\" (String "b" EmptyString)
  | "012"%char => String "\" (String "f" EmptyString)
  | _ =>
      let n := nat_of_ascii c in
      if (32 <=? n)%nat && (n <=? 126)%nat then String c EmptyString
      else String "\" (String "u" (String "0" (String "0"
             (String (hex_digit (n / 16)) (String (hex_digit (n mod 16)) EmptyString)))))
  end.

Fixpoint escape (s : string) : string :=
  match s with
  | EmptyString => EmptyString
  | String c s' => escape_char c +:+ escape s'
  end.

Definition quote (s : string) : string :=
  String "034" (escape s +:+ String "034" EmptyString).

Definition simple_escape (e : ascii) : option ascii :=
  match e with
  | "034"%char => Some "034"%char
  | "\"%char => Some "\"%char
  | "/"%char => Some "/"%char
  | "n"%char => Some "010"%char
  | "r"%char => Some "013"%char
  | "t"%char => Some "009"%char
  | "b"%char => Some "008"%char
  | "f"%char => Some "012"%char
  | _ => None
  end.

Definition hex4 (a b c d : ascii) : option ascii :=
  match hex_value a, hex_value b, hex_value c, hex_value d with
  | Some x, Some y, Some z, Some w =>
      let n := (((x * 16 + y) * 16 + z) * 16 + w)%nat in
      if (n <? 256)%nat then Some (ascii_of_nat n) else None
  | _, _, _, _ => None
  end.

(** The characters of a string up to its closing quote. *)
Fixpoint parse_chars (s : string) : option (string * string) :=
  match s with
  | EmptyString => None
  | String c rest =>
      if Ascii.eqb c "034" then Some (EmptyString, rest)
      else if Ascii.eqb c "\" then
        match rest with
        | String e rest1 =>
            if Ascii.eqb e "u" then
              match rest1 with
              | String h1 (String h2 (String h3 (String h4 rest2))) =>
                  match hex4 h1 h2 h3 h4, parse_chars rest2 with
                  | Some ch, Some (t, rest3) => Some (String ch t, rest3)
                  | _, _ => None
                  end
              | _ => None
              end
            else
              match simple_escape e, parse_chars rest1 with
              | Some ch, Some (t, rest3) => Some (String ch t, rest3)
              | _, _ => None
              end
        | EmptyString => None
        end
      else if (nat_of_ascii c <? 32)%nat then None
      else
        match parse_chars rest with
        | Some (t, rest3) => Some (String c t, rest3)
        | None => None
        end
  end.

Definition print_float (f : pyfloat) : string :=
  match f with
  | FFin q => str_of_Z (Qnum q) +:+ "/" +:+ str_of_Z (Zpos (Qden q))
  | FInf => "Infinity"
  | FNegInf => "-Infinity"
  | FNan => "NaN"
  end.

(** An unsigned number after its optional sign. *)
Definition parse_unsigned (neg : bool) (s : string) : option (pyval * string) :=
  let sign (z : Z) := if neg then (- z)%Z else z in
  let '(ds, rest) := span_digits s in
  n ← int_of_digits ds;
  match rest with
  | String "/" rest1 =>
      let '(es, rest2) := span_digits rest1 in
      d ← nat_of_digits es;
      match d with
      | Zpos p => Some (PFloat (FFin (sign n # p)), rest2)
      | _ => None
      end
  | String "." rest1 =>
      let '(fs, rest2) := span_digits rest1 in
      f ← nat_of_digits fs;
      let scale := (10 ^ Z.of_nat (String.length fs))%Z in
      Some (PFloat (FFin (sign (n * scale + f)%Z # Z.to_pos scale)), rest2)
  | _ => Some (PInt (sign n), rest)
  end.

Fixpoint strip_prefix (lit s : string) : option string :=
  match lit with
  | EmptyString => Some s
  | String a lit' =>
      match s with
      | String b s' => if Ascii.eqb a b then strip_prefix lit' s' else None
      | EmptyString => None
      end
  end.

(** A literal such as [null]. *)
Definition expect (lit : string) (v : pyval) (s : string) : option (pyval * string) :=
  match strip_prefix lit s with
  | Some rest => Some (v, rest)
  | None => None
  end.

(** [d[k] = v]. *)
Fixpoint dict_set (k : string) (v : pyval) (d : list (string * pyval))
  : list (string * pyval) :=
  match d with
  | [] => [(k, v)]
  | (k', v') :: d' =>
      if string_dec k k' then (k, v) :: d' else (k', v') :: dict_set k v d'
  end.

Section Elements.
Variable parse_value : string -> option (pyval * string).

(** The elements of an array after its opening bracket. *)
Fixpoint parse_items (n : nat) (s : string) (acc : list pyval)
  : option (pyval * string) :=
  match n with
  | O => None
  | S n' =>
      match parse_value s with
      | Some (v, rest) =>
          match skip_ws rest with
          | String "," rest1 => parse_items n' rest1 (acc ++ [v])
          | String "]" rest1 => Some (PList (acc ++ [v]), rest1)
          | _ => None
          end
      | None => None
      end
  end.

(** The members of an object after its opening brace. *)
Fixpoint parse_members (n : nat) (s : string) (acc : list (string * pyval))
  : option (pyval * string) :=
  match n with
  | O => None
  | S n' =>
      match skip_ws s with
      | String "034" rest =>
          match parse_chars rest with
          | Some (k, rest1) =>
              match skip_ws rest1 with
              | String ":" rest2 =>
                  match parse_value rest2 with
                  | Some (v, rest3) =>
                      match skip_ws rest3 with
                      | String "," rest4 => parse_members n' rest4 (dict_set k v acc)
                      | String "}" rest4 => Some (PDict (dict_set k v acc), rest4)
                      | _ => None
                      end
                  | None => None
                  end
              | _ => None
              end
          | None => None
          end
      | _ => None
      end
  end.
End Elements.

Fixpoint parse_value (fuel : nat) (s : string) : option (pyval * string) :=
  match fuel with
  | O => None
  | S fuel' =>
      match skip_ws s with
      | EmptyString => None
      | String c rest =>
          if is_digit c then parse_unsigned false (String c rest)
          else if Ascii.eqb c "-" then
            match rest with
            | String c1 _ =>
                if Ascii.eqb c1 "I" then expect "Infinity" (PFloat FNegInf) rest
                else parse_unsigned true rest
            | EmptyString => None
            end
          else if Ascii.eqb c "034" then
            match parse_chars rest with
            | Some (t, rest1) => Some (PStr t, rest1)
            | None => None
            end
          else if Ascii.eqb c "[" then
            match skip_ws rest with
            | String "]" rest1 => Some (PList [], rest1)
            | _ => parse_items (parse_value fuel') fuel' rest []
            end
          else if Ascii.eqb c "{" then
            match skip_ws rest with
            | String "}" rest1 => Some (PDict [], rest1)
            | _ => parse_members (parse_value fuel') fuel' rest []
            end
          else if Ascii.eqb c "n" then expect "null" PNone (String c rest)
          else if Ascii.eqb c "t" then expect "true" (PBool true) (String c rest)
          else if Ascii.eqb c "f" then expect "false" (PBool false) (String c rest)
          else if Ascii.eqb c "N" then expect "NaN" (PFloat FNan) (String c rest)
          else if Ascii.eqb c "I" then expect "Infinity" (PFloat FInf) (String c rest)
          else None
      end
  end.

Definition ref_json_loads (s : string) : option pyval :=
  match parse_value (S (String.length s)) s with
  | Some (v, rest) =>
      match skip_ws rest with
      | EmptyString => Some v
      | _ => None
      end
  | None => None
  end.

Fixpoint join (sep : string) (l : list string) : string :=
  match l with
  | [] => EmptyString
  | x :: l' =>
      match l' with
      | [] => x
      | _ :: _ => x +:+ sep +:+ join sep l'
      end
  end.

Fixpoint ref_json_dumps (v : pyval) : string :=
  match v with
  | PNone => "null"
  | PBool true => "true"
  | PBool false => "false"
  | PInt z => str_of_Z z
  | PFloat f => print_float f
  | PStr s => quote s
  | PList l => "[" +:+ join ", " (map ref_json_dumps l) +:+ "]"
  | PDict d =>
      "{" +:+ join ", " (map (fun kv => quote (fst kv) +:+ ": " +:+ ref_json_dumps (snd kv)) d)
      +:+ "}"
  end.

Definition split_on (sep : ascii) (s : string) : list string :=
  (fix go (s : string) (cur : string) : list string :=
     match s with
     | EmptyString => [cur]
     | String c s' =>
         if Ascii.eqb c sep then cur :: go s' EmptyString
         else go s' (cur +:+ String c EmptyString)
     end) s EmptyString.

(** A field of one or two ASCII digits. *)
Definition field12 (s : string) : option Z :=
  if forallb is_digit (list_ascii_of_string s)
     && (1 <=? String.length s)%nat && (String.length s <=? 2)%nat
  then nat_of_digits s else None.

(** [%H:%M:%S]: an hour 0..23, a minute 0..59 and a second, each of one
    or two digits; a second of 60 or 61 passes the directive's pattern and
    is then refused when the [datetime] is built. *)
Definition ref_strptime_hms (s : string) : option (Z * Z * Z) :=
  match split_on ":" s with
  | [h; m; sec] =>
      hour ← field12 h;
      minute ← field12 m;
      second ← field12 sec;
      if (hour <=? 23)%Z && (minute <=? 59)%Z && (second <=? 59)%Z
      then Some (hour, minute, second) else None
  | _ => None
  end.

(** [%Y-%m-%d]: four digits, then a month 1..12 and a day 1..31 of one or
    two digits, and the date has to exist. *)
Definition ref_strptime_ymd (s : string) : option date :=
  match split_on "-" s with
  | [y; m; d] =>
      year ← (if forallb is_digit (list_ascii_of_string y)
                 && (String.length y =? 4)%nat
              then nat_of_digits y else None);
      month ← field12 m;
      day ← field12 d;
      if (1 <=? year)%Z && (1 <=? month)%Z && (month <=? 12)%Z
         && (1 <=? day)%Z && (day <=? days_in_month year month)%Z
      then Some (mkdate year month day) else None
  | _ => None
  end.

(** [str(v)]: exact on strings, integers, [None] and booleans, which is
    all the script formats; other values are shown in their JSON form. *)
Definition ref_py_str (v : pyval) : string :=
  match v with
  | PStr s => s
  | PInt z => str_of_Z z
  | PNone => "None"
  | PBool true => "True"
  | PBool false => "False"
  | _ => ref_json_dumps v
  end.

(* ------------------------------------------------------------------ *)
(** ** Vocabulary of the specification *)

(** The week-plan of a non-final week, as the specification lists it. *)
Definition regular_week (runs_per_week week : Z) : list pyval :=
  [PStr ("Long Run (" +:+ str_of_Z (10 + week) +:+ " to " +:+
         str_of_Z (14 + week) +:+ " km)")]
  ++ (if (4 <=? runs_per_week)%Z then [PStr TEMPO] else [])
  ++ (if (5 <=? runs_per_week)%Z then [PStr INTERVALS] else [])
  ++ [PStr EASY].

(** A training plan: a list of weeks, each a list of workout strings. *)
Definition is_workout (v : pyval) : bool :=
  match v with PStr _ => true | _ => false end.
Definition is_week (v : pyval) : bool :=
  match v with PList l => forallb is_workout l | _ => false end.
Definition is_training_plan (v : pyval) : bool :=
  match v with PList l => forallb is_week l | _ => false end.

(** The question mentions the keyword, whatever the case of its letters. *)
Definition mentions (keyword question : string) : Prop :=
  exists pre post : string, lower question = pre +:+ keyword +:+ post.

(** The goal record of the specification: the six keys in any order, a
    string or integer under each, and a number or [null] as target pace. *)
Definition goal_items (g : goal) : list (string * pyval) :=
  match goal_dict g with PDict d => d | _ => [] end.

Definition number_or_null (v : pyval) : Prop :=
  v = PNone \/ (exists z, v = PInt z) \/ (exists f, v = PFloat f /\ f <> FNan).

Definition well_formed_goal (v : pyval) : Prop :=
  exists (g : goal) (d : list (string * pyval)),
    v = PDict d /\ Permutation d (goal_items g) /\
    number_or_null (g_target_pace_sec g).

(** The distance table read as numbers. *)
Definition race_distance_km (race_type : string) : option Q :=
  match assoc race_type RACE_DISTANCES with
  | Some v => match as_float v with Some (FFin q) => Some q | _ => None end
  | None => None
  end.

(** What may follow a value inside an object: a comma or the closing brace. *)
Definition delimited (rest : string) : Prop :=
  exists rest', rest = String "," rest' \/ rest = String "}" rest'.

Definition signed (neg : bool) (z : Z) : Z := if neg then (- z)%Z else z.

(** One member of an object, as the writer prints it. *)
Definition member (kv : string * pyval) : string :=
  quote (fst kv) +:+ ": " +:+ ref_json_dumps (snd kv).

(** An activity as the upstream API sends it: a JSON object. *)
Definition is_dict (v : pyval) : Prop := exists d, v = PDict d.

(** The message shown when the fetch fails. *)
Definition fetch_error (status : Z) : string :=
  "Failed to fetch activities from Strava (status code " +:+ str_of_Z status +:+ ")".

Ltac bind_ok H :=
  match type of H with
  | mbind _ ?r = Ok _ =>
      let E := fresh "E" in
      destruct r eqn:E; cbn [mbind result_bind rbind] in H; [|discriminate]
  end.

(* ------------------------------------------------------------------ *)
(** ** Sample data *)

Definition sample_goal : goal :=
  mkgoal "5K" "0:25:00" "2025-06-01" 4 (PFloat (FFin 300)) "5:00 min/km".

Definition sample_runs : list run_row :=
  [ mkrow (PStr "Morning Run") (PStr "2025-03-01") (FFin 5) (FFin 24) (FFin 288);
    mkrow (PStr "Evening Run") (PStr "2025-03-03") (FFin 5) (FFin 25) (FFin 300) ].

Definition sample_activities : pyval :=
  PList
    [ PDict [("type", PStr "Run"); ("name", PStr "Morning Run");
             ("start_date_local", PStr "2025-03-01T07:30:00Z");
             ("distance", PInt 5000); ("moving_time", PInt 1500)];
      PDict [("type", PStr "Ride"); ("name", PStr "Commute");
             ("start_date_local", PStr "2025-03-02T08:00:00Z");
             ("distance", PInt 12000); ("moving_time", PInt 2400)] ].

Definition sample_session (status : Z) (target_time : string) : session :=
  {| pick_race_type := None;
     input_target_time := Some target_time;
     pick_race_date := None;
     pick_runs_per_week := None;
     user_question := "Am I ready?";
     secrets := {[ "access_token"%string := "token"%string ]};
     today := mkdate 2025 3 1;
     api := fun _ => Ok (mkresponse status (ref_json_dumps sample_activities)) |}.

Definition empty_world : world := mkworld ∅ [].

Definition degraded_goal : goal :=
  mkgoal "Half Marathon" "abc" "2025-03-31" 4 PNone "Invalid format!".


(** A session in which no widget was touched, over a goal file whose
    stored target pace was edited by hand. *)
Definition untouched_session : session :=
  {| pick_race_type := None;
     input_target_time := None;
     pick_race_date := None;
     pick_runs_per_week := None;
     user_question := EmptyString;
     secrets := ∅;
     today := mkdate 2025 3 1;
     api := fun _ => Raise ConnectionError |}.

Definition edited_world : world :=
  mkworld
    {[ GOAL_FILE :=
         ref_json_dumps
           (goal_dict (mkgoal "10K" "0:50:00" "2025-06-01" 5
                              (PFloat (FFin 999)) "16:39 min/km")) ]}
    [].

Definition recomputed_goal : goal :=
  mkgoal "10K" "0:50:00" "2025-06-01" 5
         (PFloat (FFin (inject_Z 3000 / inject_Z 10))) "5:00 min/km".

(* ------------------------------------------------------------------ *)
(** ** Vocabulary of the further properties *)

(** Lines 214-219: the value handed to the progress bar. *)
Definition training_load (completed_long_runs : nat) (weeks_to_race : Z)
  : result pyfloat :=
  let expected_long_runs := Z.max 1 weeks_to_race in
  ratio ← py_truediv (PInt (Z.of_nat completed_long_runs)) (PInt expected_long_runs);
  Ok (if flt ratio (FFin 1) then ratio else FFin 1).

(** The fixed elements of the page (lines 99, 136 and 147). *)
Definition HEADER : element := Header "🏁 Set Your Goal".
Definition TITLE : element := Title "🏃 AI Running Coach Dashboard".
Definition NO_RUNS : element := WarningBox "No recent running activities found.".

(** The sidebar values of a first run (lines 100-110): the defaults, each
    replaced by what the user picked. *)
Definition first_run_goal `{!Runtime} (env : session) : goal :=
  current_goal (default "Half Marathon"%string (race_label <$> pick_race_type env))
               (default "1:45:00"%string (input_target_time env))
               (default (add_days (today env) 30) (pick_race_date env))
               (default 4%Z (rpw_value <$> pick_runs_per_week env)).

(** An activity with the fields the data frame reads: finite numbers for
    distance and moving time, a name, and a start date given as text. *)
Definition well_formed_activity (act : pyval) : Prop :=
  exists (d : list (string * pyval)) (distance moving_time name : pyval)
         (start : string) (qd qt : Q),
    act = PDict d /\
    assoc "distance" d = Some distance /\ as_float distance = Some (FFin qd) /\
    assoc "moving_time" d = Some moving_time /\ as_float moving_time = Some (FFin qt) /\
    assoc "name" d = Some name /\
    assoc "start_date_local" d = Some (PStr start).



(** A computation that leaves the files as they are. *)
Definition keeps_files {A} (m : M A) : Prop :=
  forall w : world, files (fst (m w)) = files w.





Definition commute_ride : list (string * pyval) :=
  [("type", PStr "Ride"); ("name", PStr "Commute");
   ("start_date_local", PStr "2025-03-02T08:00:00Z");
   ("distance", PInt 12000); ("moving_time", PInt 2400)].

Definition ride_session : session :=
  {| pick_race_type := None;
     input_target_time := None;
     pick_race_date := None;
     pick_runs_per_week := None;
     user_question := EmptyString;
     secrets := {[ "access_token"%string := "token"%string ]};
     today := mkdate 2025 3 1;
     api := fun _ => Ok (mkresponse 200 (ref_json_dumps (PList [PDict commute_ride]))) |}.

Definition list_world : world := mkworld {[ GOAL_FILE := "[1]"%string ]} [].

Definition noted_world : world := mkworld {[ "notes.txt"%string := "keep"%string ]} [].

(* ------------------------------------------------------------------ *)
(** ** Basic facts about text and numbers *)

Lemma string_app_cons (x : ascii) (a b : string) :
  String x a +:+ b = String x (a +:+ b).
Proof. reflexivity. Qed.

Lemma string_app_nil (b : string) : EmptyString +:+ b = b.
Proof. reflexivity. Qed.

Lemma string_app_assoc (a b c : string) : (a +:+ b) +:+ c = a +:+ (b +:+ c).
Proof.
  induction a as [|x a IH]; [reflexivity|].
  rewrite !string_app_cons. now rewrite IH.
Qed.

Lemma string_length_app (a b : string) :
  String.length (a +:+ b) = (String.length a + String.length b)%nat.
Proof.
  induction a as [|x a IH]; [reflexivity|].
  rewrite string_app_cons. simpl. now rewrite IH.
Qed.
Lemma Qeq_bool_false_iff (x y : Q) : Qeq_bool x y = false <-> ~ (x == y)%Q.
Proof.
  split.
  - apply Qeq_bool_neq.
  - intros Hne. destruct (Qeq_bool x y) eqn:E; [|reflexivity].
    apply Qeq_bool_eq in E. contradiction.
Qed.

Lemma Qle_bool_false_iff (x y : Q) : Qle_bool x y = false <-> (y < x)%Q.
Proof.
  split.
  - intros H. apply Qnot_le_lt. intros Hle. apply Qle_bool_iff in Hle. congruence.
  - intros H. destruct (Qle_bool x y) eqn:E; [|reflexivity].
    apply Qle_bool_iff in E. apply Qlt_not_le in H. contradiction.
Qed.

(* ------------------------------------------------------------------ *)
(** ** The reference implementation satisfies the interface *)

Lemma parse_chars_escape_char (c : ascii) (rest : string) :
  parse_chars (escape_char c +:+ rest) =
    match parse_chars rest with
    | Some (t, rest') => Some (String c t, rest')
    | None => None
    end.
Proof.
  destruct c as [[] [] [] [] [] [] [] []]; reflexivity.
Qed.

Lemma parse_chars_escape (s rest : string) :
  parse_chars (escape s +:+ String "034" rest) = Some (s, rest).
Proof.
  induction s as [|c s IH].
  - reflexivity.
  - cbn [escape]. rewrite string_app_assoc, parse_chars_escape_char.
    now rewrite IH.
Qed.
Lemma span_digits_delimited (rest : string) :
  delimited rest -> span_digits rest = (EmptyString, rest).
Proof. intros (r & [-> | ->]); reflexivity. Qed.

Lemma span_digits_uint (d : Decimal.uint) (rest : string) :
  span_digits rest = (EmptyString, rest) ->
  span_digits (NilEmpty.string_of_uint d +:+ rest) = (NilEmpty.string_of_uint d, rest).
Proof.
  intros Hr. induction d; cbn [NilEmpty.string_of_uint];
    rewrite ?string_app_nil, ?string_app_cons; try assumption;
    cbn [span_digits]; cbn; now rewrite IHd.
Qed.

Lemma nzhead_not_D0 (d d' : Decimal.uint) : Decimal.nzhead d <> Decimal.D0 d'.
Proof. induction d; cbn; try discriminate; assumption. Qed.

Lemma to_uint_head (p : positive) :
  forall d', Pos.to_uint p <> Decimal.D0 d'.
Proof.
  intros d' Hd.
  pose proof (Unsigned.to_of (Pos.to_uint p)) as Hn.
  rewrite Unsigned.of_to in Hn. cbn [N.to_uint] in Hn.
  rewrite Hd in Hn. unfold Decimal.unorm in Hn. cbn [Decimal.nzhead] in Hn.
  destruct (Decimal.nzhead d') eqn:Hz; try discriminate.
  - injection Hn as ->. apply (Unsigned.to_uint_nonzero p). exact Hd.
  - exact (nzhead_not_D0 d' _ Hz).
Qed.

Lemma str_of_Z_pos (p : positive) :
  str_of_Z (Zpos p) = NilEmpty.string_of_uint (Pos.to_uint p).
Proof.
  unfold str_of_Z. cbn [Z.to_int NilZero.string_of_int NilZero.string_of_uint].
  pose proof (Unsigned.to_uint_nonnil p) as Hn.
  now destruct (Pos.to_uint p).
Qed.

Lemma nat_of_digits_pos (p : positive) :
  nat_of_digits (NilEmpty.string_of_uint (Pos.to_uint p)) = Some (Zpos p).
Proof.
  unfold nat_of_digits.
  pose proof (NilZero.usu (Pos.to_uint p) (Unsigned.to_uint_nonnil p)) as Hu.
  pose proof (Unsigned.to_uint_nonnil p) as Hn.
  assert (Hs : NilZero.string_of_uint (Pos.to_uint p)
               = NilEmpty.string_of_uint (Pos.to_uint p)) by now destruct (Pos.to_uint p).
  rewrite Hs in Hu. rewrite Hu. cbn. unfold Z.of_uint.
  now rewrite Unsigned.of_to.
Qed.

Lemma int_of_digits_pos (p : positive) :
  int_of_digits (NilEmpty.string_of_uint (Pos.to_uint p)) = Some (Zpos p).
Proof.
  rewrite <- nat_of_digits_pos. unfold int_of_digits.
  pose proof (to_uint_head p) as Hh.
  destruct (Pos.to_uint p) as [|d|d|d|d|d|d|d|d|d|d]; try reflexivity.
  now destruct (Hh d).
Qed.

(** The digits of a natural number [n], as [str_of_Z] writes them. *)
Lemma digits_of_nonneg (n : Z) :
  (0 <= n)%Z ->
  exists c t, str_of_Z n = String c t /\ is_digit c = true /\
    int_of_digits (String c t) = Some n /\ nat_of_digits (String c t) = Some n /\
    forall rest, span_digits rest = (EmptyString, rest) ->
                 span_digits (String c t +:+ rest) = (String c t, rest).
Proof.
  intros Hn. destruct n as [|p|p]; [| |lia].
  - exists "0"%char, EmptyString. repeat split. intros rest Hr.
    cbn [span_digits String.append]. rewrite string_app_cons, string_app_nil.
    cbn [span_digits]. cbn. now rewrite Hr.
  - rewrite str_of_Z_pos.
    pose proof (int_of_digits_pos p) as Hi. pose proof (nat_of_digits_pos p) as Hd.
    pose proof (span_digits_uint (Pos.to_uint p)) as Hsp.
    pose proof (Unsigned.to_uint_nonnil p) as Hnn.
    destruct (Pos.to_uint p) as [|d|d|d|d|d|d|d|d|d|d]; [congruence|..];
      cbn [NilEmpty.string_of_uint] in *; eexists; eexists;
      (split; [reflexivity | split; [reflexivity | split; [exact Hi | split; [exact Hd | exact Hsp]]]]).
Qed.

Lemma is_digit_dispatch (c : ascii) :
  is_digit c = true ->
  Ascii.eqb c "I" = false /\ is_ws c = false.
Proof.
  destruct c as [[] [] [] [] [] [] [] []]; cbn; intros H; try discriminate; auto.
Qed.
Lemma str_of_Z_neg (p : positive) :
  str_of_Z (Zneg p) = String "-" (str_of_Z (Zpos p)).
Proof. reflexivity. Qed.
Lemma parse_unsigned_int (neg : bool) (n : Z) (rest : string) :
  (0 <= n)%Z -> delimited rest ->
  parse_unsigned neg (str_of_Z n +:+ rest) = Some (PInt (signed neg n), rest).
Proof.
  intros Hn Hdel.
  destruct (digits_of_nonneg n Hn) as (c & t & -> & _ & Hi & _ & Hsp).
  unfold parse_unsigned. rewrite (Hsp _ (span_digits_delimited _ Hdel)).
  rewrite Hi. cbn [mbind option_bind].
  destruct Hdel as (r & [-> | ->]); reflexivity.
Qed.

Lemma parse_unsigned_frac (neg : bool) (n : Z) (d : positive) (rest : string) :
  (0 <= n)%Z -> delimited rest ->
  parse_unsigned neg (str_of_Z n +:+ String "/" (str_of_Z (Zpos d) +:+ rest))
    = Some (PFloat (FFin (signed neg n # d)), rest).
Proof.
  intros Hn Hdel.
  destruct (digits_of_nonneg n Hn) as (c & t & -> & _ & Hi & _ & Hsp).
  destruct (digits_of_nonneg (Zpos d) ltac:(lia)) as (c' & t' & -> & _ & _ & Hd & Hsp').
  unfold parse_unsigned.
  rewrite (Hsp (String "/" (String c' t' +:+ rest)) eq_refl).
  rewrite Hi. cbn [mbind option_bind].
  rewrite (Hsp' _ (span_digits_delimited _ Hdel)).
  rewrite Hd. reflexivity.
Qed.

Lemma parse_value_digit (f : nat) (c : ascii) (s : string) :
  is_digit c = true ->
  parse_value (S f) (String c s) = parse_unsigned false (String c s).
Proof.
  intros Hc. destruct (is_digit_dispatch c Hc) as [_ Hws].
  cbn [parse_value skip_ws]. rewrite Hws. now rewrite Hc.
Qed.

Lemma parse_value_minus (f : nat) (c : ascii) (s : string) :
  is_digit c = true ->
  parse_value (S f) (String "-" (String c s)) = parse_unsigned true (String c s).
Proof.
  intros Hc. destruct (is_digit_dispatch c Hc) as [HI _].
  change (parse_value (S f) (String "-" (String c s)))
    with (if Ascii.eqb c "I" then expect "Infinity" (PFloat FNegInf) (String c s)
          else parse_unsigned true (String c s)).
  now rewrite HI.
Qed.

Lemma parse_value_quote (f : nat) (s : string) :
  parse_value (S f) (String "034" s) =
    match parse_chars s with
    | Some (t, rest) => Some (PStr t, rest)
    | None => None
    end.
Proof. reflexivity. Qed.

Lemma parse_value_space (f : nat) (s : string) :
  parse_value (S f) (String " " s) = parse_value (S f) s.
Proof. reflexivity. Qed.

Lemma parse_value_int (f : nat) (z : Z) (rest : string) :
  delimited rest ->
  parse_value (S f) (str_of_Z z +:+ rest) = Some (PInt z, rest).
Proof.
  intros Hdel. destruct (Z_lt_le_dec z 0) as [Hneg | Hpos].
  - destruct z as [|p|p]; try lia. rewrite str_of_Z_neg, string_app_cons.
    destruct (digits_of_nonneg (Zpos p) ltac:(lia)) as (c & t & Hs & Hc & _).
    pose proof (parse_unsigned_int true (Zpos p) rest ltac:(lia) Hdel) as Hp.
    rewrite Hs in *. rewrite string_app_cons in *.
    rewrite (parse_value_minus f c _ Hc). exact Hp.
  - destruct (digits_of_nonneg z Hpos) as (c & t & Hs & Hc & _).
    pose proof (parse_unsigned_int false z rest Hpos Hdel) as Hp.
    rewrite Hs in *. rewrite string_app_cons in *.
    rewrite (parse_value_digit f c _ Hc). exact Hp.
Qed.

Lemma parse_value_float (f : nat) (q : Q) (rest : string) :
  delimited rest ->
  parse_value (S f) (print_float (FFin q) +:+ rest) = Some (PFloat (FFin q), rest).
Proof.
  intros Hdel. destruct q as [n d]. cbn [print_float Qnum Qden].
  rewrite !string_app_assoc. rewrite string_app_cons, string_app_nil.
  destruct (Z_lt_le_dec n 0) as [Hneg | Hpos].
  - destruct n as [|p|p]; try lia. rewrite str_of_Z_neg, string_app_cons.
    destruct (digits_of_nonneg (Zpos p) ltac:(lia)) as (c & t & Hs & Hc & _).
    pose proof (parse_unsigned_frac true (Zpos p) d rest ltac:(lia) Hdel) as Hp.
    rewrite Hs in *. rewrite string_app_cons in *.
    rewrite (parse_value_minus f c _ Hc). exact Hp.
  - destruct (digits_of_nonneg n Hpos) as (c & t & Hs & Hc & _).
    pose proof (parse_unsigned_frac false n d rest Hpos Hdel) as Hp.
    rewrite Hs in *. rewrite string_app_cons in *.
    rewrite (parse_value_digit f c _ Hc). exact Hp.
Qed.

Lemma parse_value_scalar (f : nat) (v : pyval) (rest : string) :
  json_scalar v -> delimited rest ->
  parse_value (S f) (ref_json_dumps v +:+ rest) = Some (v, rest).
Proof.
  intros Hv Hdel. destruct v as [|b|z|x|s|l|d]; cbn [json_scalar] in Hv; try contradiction.
  - reflexivity.
  - destruct b; reflexivity.
  - now apply parse_value_int.
  - destruct x as [q| | |]; try congruence; try reflexivity.
    now apply parse_value_float.
  - cbn [ref_json_dumps]. unfold quote.
    rewrite string_app_cons, string_app_assoc, string_app_cons, string_app_nil.
    rewrite parse_value_quote. now rewrite parse_chars_escape.
Qed.
Lemma ref_json_dumps_dict (d : list (string * pyval)) :
  ref_json_dumps (PDict d) = "{" +:+ join ", " (map member d) +:+ "}".
Proof. reflexivity. Qed.
Lemma member_head (kv : string * pyval) (rest : string) :
  member kv +:+ rest =
    String "034" (escape (fst kv) +:+
      String "034" (String ":" (String " " (ref_json_dumps (snd kv) +:+ rest)))).
Proof.
  unfold member, quote.
  repeat first [rewrite string_app_assoc | rewrite string_app_cons
               | rewrite string_app_nil].
  reflexivity.
Qed.

Lemma join_cons (kv : string * pyval) (d : list (string * pyval)) (rest : string) :
  join ", " (map member (kv :: d)) +:+ rest =
    member kv +:+
      match d with
      | [] => rest
      | _ :: _ => String "," (String " " (join ", " (map member d) +:+ rest))
      end.
Proof.
  destruct d as [|kv' d]; [reflexivity|].
  cbn [map join]. now rewrite !string_app_assoc.
Qed.

Lemma dict_set_fresh (k : string) (v : pyval) (acc : list (string * pyval)) :
  k ∉ map fst acc -> dict_set k v acc = acc ++ [(k, v)].
Proof.
  induction acc as [|[k' v'] acc IH]; intros Hk; [reflexivity|].
  cbn [dict_set]. cbn in Hk. apply not_elem_of_cons in Hk as [Hne Hk].
  destruct (string_dec k k') as [->|_]; [congruence|].
  cbn. now rewrite IH.
Qed.

Lemma parse_members_record (f : nat) (d : list (string * pyval)) :
  forall (n : nat) (s tail : string) (acc : list (string * pyval)),
    d <> [] ->
    Forall (fun kv => json_scalar (snd kv)) d ->
    NoDup (map fst (acc ++ d)) ->
    (length d <= n)%nat ->
    skip_ws s = join ", " (map member d) +:+ String "}" tail ->
    parse_members (parse_value (S f)) n s acc = Some (PDict (acc ++ d), tail).
Proof.
  induction d as [|[k v] d IH]; intros n s tail acc Hne Hsc Hnd Hlen Hs; [congruence|].
  destruct n as [|n]; [cbn in Hlen; lia|].
  cbn [parse_members]. rewrite Hs, join_cons, member_head.
  cbn [fst snd]. rewrite parse_chars_escape.
  change (skip_ws (String ":" ?x)) with (String ":" x).
  cbv iota. rewrite parse_value_space.
  apply Forall_cons in Hsc as [Hv Hsc]. cbn [snd] in Hv.
  assert (Hk : k ∉ map fst acc).
  { rewrite map_app in Hnd. apply NoDup_app in Hnd as (_ & Hdis & _).
    intros Hin. apply (Hdis k Hin). cbn. apply elem_of_cons. now left. }
  assert (Hnd' : NoDup (map fst ((acc ++ [(k, v)]) ++ d))).
  { now rewrite <- app_assoc. }
  destruct d as [|kv' d].
  - rewrite (parse_value_scalar f v _ Hv); [|eexists; right; reflexivity].
    cbn [skip_ws is_ws]. now rewrite dict_set_fresh.
  - rewrite (parse_value_scalar f v _ Hv); [|eexists; left; reflexivity].
    change (skip_ws (String "," ?x)) with (String "," x). cbv iota.
    rewrite dict_set_fresh by assumption.
    rewrite (IH n _ tail (acc ++ [(k, v)])); try assumption.
    + now rewrite <- app_assoc.
    + discriminate.
    + cbn in Hlen. cbn. lia.
    + change (skip_ws (String " " ?x)) with (skip_ws x).
      rewrite join_cons, member_head. reflexivity.
Qed.

Lemma join_length (d : list (string * pyval)) :
  (length d <= String.length (join ", " (map member d)))%nat.
Proof.
  induction d as [|kv d IH]; [cbn; lia|].
  pose proof (join_cons kv d EmptyString) as Hj.
  assert (Hnil : forall x, x +:+ EmptyString = x).
  { induction x as [|c x IHx]; [reflexivity|]. now rewrite string_app_cons, IHx. }
  rewrite Hnil in Hj. rewrite Hj, member_head. 
  destruct d as [|kv' d]; cbn [String.length length] in *.
  - lia.
  - rewrite !string_length_app. cbn [String.length]. rewrite !string_length_app.
    rewrite Hnil. cbn [String.length]. lia.
Qed.

Lemma ref_json_loads_dumps (d : list (string * pyval)) :
  json_record d -> ref_json_loads (ref_json_dumps (PDict d)) = Some (PDict d).
Proof.
  intros [Hnd Hsc]. unfold ref_json_loads. rewrite ref_json_dumps_dict.
  destruct d as [|kv d]; [reflexivity|].
  rewrite string_app_cons, string_app_nil.
  set (body := join ", " (map member (kv :: d)) +:+ "}").
  assert (Hbody : exists x, body = String "034" x).
  { unfold body. rewrite join_cons, member_head. eexists. reflexivity. }
  destruct Hbody as [x Hx].
  cbn [String.length].
  change (parse_value (S (S (String.length body))) (String "{" body))
    with (match skip_ws body with
          | String "}" rest1 => Some (PDict [], rest1)
          | _ => parse_members (parse_value (S (String.length body)))
                   (S (String.length body)) body []
          end).
  rewrite Hx. change (skip_ws (String "034" x)) with (String "034" x). cbv iota.
  rewrite <- Hx.
  rewrite (parse_members_record _ (kv :: d) _ body EmptyString []).
  - reflexivity.
  - discriminate.
  - assumption.
  - assumption.
  - unfold body. rewrite string_length_app. pose proof (join_length (kv :: d)). lia.
  - transitivity body; [now rewrite Hx | reflexivity].
Qed.

#[export] Instance ref_runtime : Runtime := {|
  json_dumps := ref_json_dumps;
  json_loads := ref_json_loads;
  strptime_hms := ref_strptime_hms;
  strptime_ymd := ref_strptime_ymd;
  py_str := ref_py_str;
  json_loads_dumps := ref_json_loads_dumps;
  json_loads_null := eq_refl;
  py_str_str := fun s => eq_refl
|}.

(* ------------------------------------------------------------------ *)
(** ** Pace from time and distance *)




(* ------------------------------------------------------------------ *)
(** ** Pace display *)

(** [sec // 60] and [sec % 60] on a finite non-negative number. *)
Lemma floordiv60_bounds (q : Q) :
  (0 <= q)%Q ->
  (0 <= Qfloor (q / 60))%Z /\
  (0 <= q - 60 * inject_Z (Qfloor (q / 60)))%Q /\
  (q - 60 * inject_Z (Qfloor (q / 60)) < 60)%Q.
Proof.
  intros Hq.
  pose proof (Qfloor_le (q / 60)) as Hlo.
  pose proof (Qlt_floor (q / 60)) as Hhi.
  rewrite inject_Z_plus in Hhi.
  assert (Hx : (q == 60 * (q / 60))%Q) by (field).
  set (x := (q / 60)%Q) in *.
  set (f := inject_Z (Qfloor x)) in *.
  repeat split.
  - change 0%Z with (Qfloor 0). apply Qfloor_resp_le. unfold x. 
    apply Qle_shift_div_l; [reflexivity | lra].
  - lra.
  - change (inject_Z 1) with 1%Q in Hhi. lra.
Qed.

Lemma Qfloor_range (r : Q) (n : Z) :
  (0 <= r)%Q -> (r < inject_Z n)%Q -> (0 <= Qfloor r < n)%Z.
Proof.
  intros H0 Hn. split.
  - change 0%Z with (Qfloor 0). now apply Qfloor_resp_le.
  - pose proof (Qfloor_le r) as Hle.
    assert (H : (inject_Z (Qfloor r) < inject_Z n)%Q) by lra.
    now rewrite <- Zlt_Qlt in H.
Qed.


Lemma py_int_integer (z : Z) : py_int (FFin (inject_Z z)) = Ok z.
Proof.
  unfold py_int. destruct (Qle_bool 0 (inject_Z z)).
  - now rewrite Qfloor_Z.
  - now rewrite Qceiling_Z.
Qed.

Lemma seconds_to_pace_finite (sec : pyval) (q : Q) :
  as_float sec = Some (FFin q) -> ~ (q == 0)%Q ->
  seconds_to_pace sec =
    (seconds ← py_int (FFin (q - 60 * inject_Z (Qfloor (q / 60))));
     Ok (str_of_Z (Qfloor (q / 60)) +:+ ":" +:+ format_02d seconds +:+ " min/km")).
Proof.
  intros Hs Hnz. unfold seconds_to_pace, py_eq_num. rewrite Hs.
  apply Qeq_bool_false_iff in Hnz.
  cbn [feq orb of_option]. rewrite Hnz.
  unfold ffloordiv, fmod. change (Qeq_bool 60 0) with false.
  cbn [mbind result_bind rbind orb].
  rewrite py_int_integer. reflexivity.
Qed.

Lemma seconds_to_pace_total (q : Q) :
  exists s, seconds_to_pace (PFloat (FFin q)) = Ok s.
Proof.
  destruct (Qeq_bool q 0) eqn:E.
  - exists "-"%string. unfold seconds_to_pace, py_eq_num.
    cbn [as_float feq]. now rewrite E.
  - apply Qeq_bool_false_iff in E.
    rewrite (seconds_to_pace_finite (PFloat (FFin q)) q eq_refl E). unfold py_int.
    destruct (Qle_bool 0 _); eexists; reflexivity.
Qed.




(* ------------------------------------------------------------------ *)
(** ** Training plan *)

Lemma fold_left_snoc {A B} (f : A -> B) (l : list A) (acc : list B) :
  fold_left (fun plan x => plan ++ [f x]) l acc = acc ++ map f l.
Proof.
  revert acc. induction l as [|x l IH]; intros acc; simpl.
  - now rewrite app_nil_r.
  - rewrite IH. now rewrite <- app_assoc.
Qed.

Lemma range_length (n : Z) : (0 <= n)%Z -> Z.of_nat (length (range n)) = n.
Proof. intros Hn. unfold range. rewrite length_map, length_seq. lia. Qed.

Lemma range_lookup (n week : Z) :
  (0 <= week < n)%Z -> range n !! Z.to_nat week = Some week.
Proof.
  intros Hw. unfold range.
  change (map Z.of_nat (seq 0 (Z.to_nat n))) with (Z.of_nat <$> seq 0 (Z.to_nat n)).
  rewrite list_lookup_fmap, lookup_seq_lt by lia. simpl. f_equal. lia.
Qed.
Lemma week_body_last (weeks_left runs_per_week : Z) :
  week_body weeks_left runs_per_week (weeks_left - 1) = [PStr TAPER].
Proof. unfold week_body. now rewrite Z.eqb_refl. Qed.

Lemma week_body_regular (weeks_left runs_per_week week : Z) :
  week <> (weeks_left - 1)%Z ->
  week_body weeks_left runs_per_week week = regular_week runs_per_week week.
Proof.
  intros Hne. unfold week_body, regular_week, long_run.
  apply Z.eqb_neq in Hne. rewrite Hne. rewrite !Z.mul_1_r.
  destruct (4 <=? runs_per_week)%Z, (5 <=? runs_per_week)%Z; reflexivity.
Qed.

(** C1.  With [weeks_left >= 2] the plan has exactly [weeks_left]
    week-plans; the last one is the single taper entry; week [week] before
    it is the long run from [10 + week] to [14 + week] km, then the tempo
    run when [runs_per_week >= 4], then the intervals when
    [runs_per_week >= 5], then the easy runs. *)
Theorem generate_training_plan_weeks (today race_day : date) (runs_per_week : Z) :
  let weeks_left := (days_between race_day today / 7)%Z in
  (2 <= weeks_left)%Z ->
  exists plan : list pyval,
    generate_training_plan today race_day runs_per_week = PList plan /\
    Z.of_nat (length plan) = weeks_left /\
    plan !! Z.to_nat (weeks_left - 1) = Some (PList [PStr TAPER]) /\
    (forall week : Z, (0 <= week < weeks_left - 1)%Z ->
       plan !! Z.to_nat week = Some (PList (regular_week runs_per_week week))).
Proof.
  intros weeks_left Hw. unfold generate_training_plan. fold weeks_left.
  assert (Hlt : (weeks_left <? 2)%Z = false) by (apply Z.ltb_ge; lia).
  rewrite Hlt.
  rewrite (fold_left_snoc (fun week => PList (week_body weeks_left runs_per_week week))).
  rewrite app_nil_l.
  eexists. split; [reflexivity|].
  change (map ?f ?l) with (f <$> l).
  split; [|split].
  - rewrite length_fmap. apply range_length. lia.
  - rewrite list_lookup_fmap, range_lookup by lia. simpl.
    now rewrite week_body_last.
  - intros week Hweek. rewrite list_lookup_fmap, range_lookup by lia. simpl.
    rewrite week_body_regular by lia. reflexivity.
Qed.

Lemma generate_training_plan_weeks_witness :
  exists plan : list pyval,
    generate_training_plan (mkdate 2025 3 1) (mkdate 2025 3 22) 5 = PList plan /\
    Z.of_nat (length plan) = 3%Z /\
    plan !! 2%nat = Some (PList [PStr TAPER]) /\
    (forall week : Z, (0 <= week < 2)%Z ->
       plan !! Z.to_nat week = Some (PList (regular_week 5 week))).
Proof.
  apply (generate_training_plan_weeks (mkdate 2025 3 1) (mkdate 2025 3 22) 5).
  vm_compute. discriminate.
Defined.
Lemma generate_training_plan_short (today race_day : date) (runs_per_week : Z) :
  (days_between race_day today / 7 < 2)%Z ->
  generate_training_plan today race_day runs_per_week = PList [PStr NOT_ENOUGH_TIME].
Proof.
  intros Hw. unfold generate_training_plan.
  apply Z.ltb_lt in Hw. now rewrite Hw.
Qed.

Lemma generate_training_plan_long_shape (today race_day : date) (runs_per_week : Z) :
  (2 <= days_between race_day today / 7)%Z ->
  is_training_plan (generate_training_plan today race_day runs_per_week) = true.
Proof.
  intros Hw. unfold generate_training_plan.
  assert (Hlt : (days_between race_day today / 7 <? 2)%Z = false) by (apply Z.ltb_ge; lia).
  rewrite Hlt. rewrite (fold_left_snoc (fun week => PList (week_body _ runs_per_week week))).
  simpl. apply forallb_forall. intros w Hin. apply in_map_iff in Hin.
  destruct Hin as (week & <- & _). unfold week_body. simpl.
  destruct (week =? _)%Z, (4 <=? runs_per_week)%Z, (5 <=? runs_per_week)%Z; reflexivity.
Qed.

(** C2.  Six days before the race the plan is the one-element list holding
    the marker string itself: its only week is not a list of workouts,
    while every plan of two weeks or more has the shape. *)
Theorem not_enough_time_shape :
  generate_training_plan (mkdate 2025 3 1) (mkdate 2025 3 7) 4
    = PList [PStr NOT_ENOUGH_TIME] /\
  is_training_plan (generate_training_plan (mkdate 2025 3 1) (mkdate 2025 3 7) 4) = false /\
  is_training_plan (generate_training_plan (mkdate 2025 3 1) (mkdate 2025 3 15) 4) = true.
Proof. repeat split; vm_compute; reflexivity. Qed.

(* ------------------------------------------------------------------ *)
(** ** Analyst responder *)

Lemma prefix_spec (p s : string) :
  String.prefix p s = true <-> exists post, s = p +:+ post.
Proof.
  revert s. induction p as [|a p IH]; intros s.
  - split; [intros _; now exists s | intros _; now destruct s].
  - destruct s as [|b s]; simpl.
    + split; [discriminate | intros (post & H); discriminate].
    + destruct (ascii_dec a b) as [->|Hne].
      * rewrite IH. split; intros (post & H); exists post.
        -- rewrite string_app_cons. now rewrite H.
        -- rewrite string_app_cons in H. now injection H.
      * split; [discriminate|]. intros (post & H).
        rewrite string_app_cons in H. injection H as H1 _. congruence.
Qed.

Lemma contains_spec (pat s : string) :
  contains pat s = true <-> exists pre post, s = pre +:+ pat +:+ post.
Proof.
  induction s as [|c s IH].
  - cbn [contains]. rewrite orb_false_r, prefix_spec. split.
    + intros (post & H). now exists EmptyString, post.
    + intros (pre & post & H). destruct pre; [now exists post|discriminate].
  - cbn [contains]. rewrite orb_true_iff, IH, prefix_spec. split.
    + intros [(post & H) | (pre & post & H)].
      * now exists EmptyString, post.
      * exists (String c pre), post. rewrite string_app_cons. now rewrite H.
    + intros (pre & post & H). destruct pre as [|x pre].
      * left. now exists post.
      * right. rewrite string_app_cons in H. injection H as _ H. now exists pre, post.
Qed.

Lemma mentions_iff (keyword question : string) :
  contains keyword (lower question) = true <-> mentions keyword question.
Proof. apply contains_spec. Qed.

Lemma not_mentions_iff (keyword question : string) :
  contains keyword (lower question) = false <-> ~ mentions keyword question.
Proof.
  rewrite <- mentions_iff. destruct (contains _ _); split; congruence.
Qed.




(** C7, amended.  Matching is by substring of the lower-cased question,
    first rule first.  When the mean recent pace is a finite number: a
    question with "pace" gets the formatted mean and the goal's target pace
    string; otherwise one with "ready" or "close", the target pace being a
    number, gets the encouraging message when the mean is strictly below
    the target and the behind-goal message otherwise.  Otherwise "next run"
    gets the fixed recommendation, and anything else the fallback. *)
Theorem ai_analyst_response_spec (question : string) (goal_data : goal)
    (recent_runs_df : list run_row) :
  (mentions "pace" question ->
   forall mean : Q,
     series_mean (map pace_sec_per_km recent_runs_df) = FFin mean ->
     exists shown : string,
       seconds_to_pace (PFloat (FFin mean)) = Ok shown /\
       ai_analyst_response question goal_data recent_runs_df =
         Ok ("Your average recent pace is " +:+ shown +:+
             ". Target pace for your goal is " +:+
             g_target_pace_formatted goal_data +:+ ".")) /\
  (~ mentions "pace" question ->
   mentions "ready" question \/ mentions "close" question ->
   forall mean target : Q,
     series_mean (map pace_sec_per_km recent_runs_df) = FFin mean ->
     as_float (g_target_pace_sec goal_data) = Some (FFin target) ->
     ((mean < target)%Q ->
      ai_analyst_response question goal_data recent_runs_df = Ok ENCOURAGING) /\
     ((target <= mean)%Q ->
      ai_analyst_response question goal_data recent_runs_df = Ok BEHIND)) /\
  (~ mentions "pace" question -> ~ mentions "ready" question ->
   ~ mentions "close" question -> mentions "next run" question ->
   ai_analyst_response question goal_data recent_runs_df = Ok NEXT_RUN) /\
  (~ mentions "pace" question -> ~ mentions "ready" question ->
   ~ mentions "close" question -> ~ mentions "next run" question ->
   ai_analyst_response question goal_data recent_runs_df = Ok FALLBACK).
Proof.
  unfold ai_analyst_response. split; [|split; [|split]].
  - intros Hp mean Hmean. apply mentions_iff in Hp. rewrite Hp, Hmean.
    destruct (seconds_to_pace_total mean) as [shown Hshown].
    exists shown. split; [assumption|]. now rewrite Hshown.
  - intros Hp Hrc mean target Hmean Htarget.
    apply not_mentions_iff in Hp. rewrite Hp.
    assert (Hb : contains "ready" (lower question)
                 || contains "close" (lower question) = true).
    { apply orb_true_iff. destruct Hrc as [Hr|Hc]; [left|right]; now apply mentions_iff. }
    rewrite Hb, Hmean. unfold py_lt. rewrite Htarget.
    cbn [flt mbind result_bind rbind]. split.
    + intros Hlt. apply Qle_bool_false_iff in Hlt. now rewrite Hlt.
    + intros Hle. apply Qle_bool_iff in Hle. now rewrite Hle.
  - intros Hp Hr Hc Hn.
    apply not_mentions_iff in Hp, Hr, Hc. apply mentions_iff in Hn.
    now rewrite Hp, Hr, Hc, Hn.
  - intros Hp Hr Hc Hn.
    apply not_mentions_iff in Hp, Hr, Hc, Hn.
    now rewrite Hp, Hr, Hc, Hn.
Qed.

Lemma ai_analyst_response_spec_witness :
  ai_analyst_response "Am I READY?" sample_goal sample_runs = Ok ENCOURAGING.
Proof.
  destruct (ai_analyst_response_spec "Am I READY?" sample_goal sample_runs)
    as (_ & Hready & _).
  refine (proj1 (Hready _ _ ((0 + 288 + 300) / inject_Z 2)%Q 300%Q _ _) _).
  - apply not_mentions_iff. reflexivity.
  - left. apply mentions_iff. reflexivity.
  - reflexivity.
  - reflexivity.
  - reflexivity.
Defined.

(** C7, as stated, fails: with no recent runs the mean is [nan] and the
    "pace" answer cannot be formatted. *)
Lemma ai_analyst_response_counterexample :
  ai_analyst_response "What is my pace?" sample_goal [] = Raise ValueError.
Proof. reflexivity. Qed.

(* ------------------------------------------------------------------ *)
(** ** Goal store *)

Lemma goal_items_record (g : goal) :
  number_or_null (g_target_pace_sec g) -> json_record (goal_items g).
Proof.
  intros Hp. split.
  - cbn. apply (bool_decide_unpack _). vm_compute. exact I.
  - unfold goal_items, goal_dict. repeat constructor; cbn; try exact I.
    destruct Hp as [-> | [[z ->] | (f & -> & Hf)]]; cbn; auto.
Qed.

Lemma well_formed_goal_record (d : list (string * pyval)) :
  well_formed_goal (PDict d) -> json_record d.
Proof.
  intros (g & d' & Heq & Hperm & Hp). injection Heq as <-.
  destruct (goal_items_record g Hp) as [Hnd Hall].
  split.
  - now rewrite Hperm.
  - now rewrite Hperm.
Qed.

Section Store.
Context `{!Runtime}.

Lemma load_goal_read (fs : gmap string string) (text : string) :
  fs !! GOAL_FILE = Some text ->
  load_goal fs = Ok (default PNone (json_loads text)).
Proof.
  intros Hf. unfold load_goal, open_read, json_load. rewrite Hf. cbn.
  now destruct (json_loads text).
Qed.

Lemma load_goal_missing (fs : gmap string string) :
  fs !! GOAL_FILE = None -> load_goal fs = Ok PNone.
Proof. intros Hf. unfold load_goal, open_read. now rewrite Hf. Qed.

Lemma load_after_save (g : pyval) (fs fs' : gmap string string) :
  well_formed_goal g ->
  fs' !! GOAL_FILE = save_goal g fs !! GOAL_FILE ->
  load_goal fs' = Ok g.
Proof.
  intros Hwf Hsame. unfold save_goal in Hsame.
  rewrite lookup_insert_eq in Hsame.
  rewrite (load_goal_read _ _ Hsame).
  destruct Hwf as (g0 & d & -> & Hrest).
  rewrite json_loads_dumps; [reflexivity|].
  apply well_formed_goal_record. now exists g0, d.
Qed.

(** C6.  A well-formed goal that is saved is what the next load returns,
    as long as the goal file still holds what the save wrote. *)
Theorem goal_round_trip (g : pyval) (fs fs' : gmap string string) :
  well_formed_goal g ->
  fs' !! GOAL_FILE = save_goal g fs !! GOAL_FILE ->
  load_goal fs' = Ok g.
Proof. apply load_after_save. Qed.

(** C10, amended.  [load_goal] validates nothing: whatever the file
  decodes to is returned as it is.  It returns [None] when the file
  cannot be opened, when it cannot be decoded, and also when it decodes
  to [None] (the document [null]); it never raises. *)
Theorem load_goal_spec (fs : gmap string string) :
  (forall (text : string) (v : pyval),
      open_read GOAL_FILE fs = Ok text -> json_load text = Ok v ->
      load_goal fs = Ok v) /\
  (forall e : exn, open_read GOAL_FILE fs = Raise e -> load_goal fs = Ok PNone) /\
  (forall (text : string) (e : exn),
      open_read GOAL_FILE fs = Ok text -> json_load text = Raise e ->
      load_goal fs = Ok PNone) /\
  (load_goal fs = Ok PNone <->
     (exists e, open_read GOAL_FILE fs = Raise e) \/
     (exists text, open_read GOAL_FILE fs = Ok text /\
        ((exists e, json_load text = Raise e) \/ json_load text = Ok PNone))) /\
  (exists v, load_goal fs = Ok v).
Proof.
  unfold load_goal.
  destruct (open_read GOAL_FILE fs) as [text|e] eqn:Ho; cbn.
  - destruct (json_load text) as [v|e] eqn:Hj; cbn.
    + repeat split; try congruence.
      * intros Hv. right. exists text. split; [reflexivity|]. right. congruence.
      * intros [(e & He) | (t & Ht & [(e & He) | Hv])]; congruence.
      * now exists v.
    + repeat split; try congruence.
      * intros _. right. exists text. split; [reflexivity|]. left. exists e. congruence.
      * now exists PNone.
  - repeat split; try congruence.
    + intros _. left. now exists e.
    + now exists PNone.
Qed.

End Store.

Lemma goal_round_trip_witness :
  load_goal (save_goal (goal_dict sample_goal) ∅) = Ok (goal_dict sample_goal).
Proof.
  apply (goal_round_trip (goal_dict sample_goal) ∅).
  - exists sample_goal, (goal_items sample_goal). split; [reflexivity|].
    split; [reflexivity|]. right. right. exists (FFin 300). split; [reflexivity|discriminate].
  - reflexivity.
Defined.

(** C10, as stated, fails: a goal file holding [null] opens and decodes
    without error, and [load_goal] still returns [None]. *)
Lemma load_goal_null_counterexample :
  open_read GOAL_FILE {[ GOAL_FILE := "null"%string ]} = Ok "null"%string /\
  json_load "null" = Ok PNone /\
  load_goal {[ GOAL_FILE := "null"%string ]} = Ok PNone.
Proof. repeat split. Qed.

(* ------------------------------------------------------------------ *)
(** ** The render pass: inversion lemmas *)

Lemma M_bind_done {A B} (m : M A) (k : A -> M B) (w w' : world) (b : B) :
  (m ≫= k) w = (w', Done b) ->
  exists (a : A) (w1 : world), m w = (w1, Done a) /\ k a w1 = (w', Done b).
Proof.
  unfold mbind, M_bind, Mbind. destruct (m w) as [w1 [a|e|]]; intros H; try discriminate.
  now exists a, w1.
Qed.

Lemma lift_done {A} (r : result A) (w w' : world) (a : A) :
  lift r w = (w', Done a) -> r = Ok a /\ w' = w.
Proof. unfold lift. destruct r; intros H; inversion H; auto. Qed.

Lemma emit_done (e : element) (w w' : world) (u : unit) :
  emit e w = (w', Done u) -> w' = mkworld (files w) (screen w ++ [e]).
Proof. unfold emit. now intros [= <- _]. Qed.

(* ------------------------------------------------------------------ *)
(** ** Activity fetch *)

Lemma py_eq_str_true (v : pyval) (s : string) :
  py_eq_str v s = true <-> v = PStr s.
Proof.
  destruct v; simpl; try (split; [discriminate | intros H; discriminate]).
  destruct (string_dec s0 s) as [->|Hne]; split; intros H; try congruence.
Qed.

Lemma keep_runs_spec (activities runs : list pyval) :
  keep_runs activities = Ok runs ->
  forall act : pyval,
    In act runs <-> In act activities /\ py_get act "type" = Ok (PStr "Run").
Proof.
  revert runs. induction activities as [|a rest IH]; intros runs Hk act.
  - injection Hk as <-. cbn. tauto.
  - cbn [keep_runs] in Hk. bind_ok Hk. bind_ok Hk.
    injection Hk as <-. specialize (IH _ eq_refl act).
    destruct (py_eq_str a0 "Run") eqn:Hty.
    + apply py_eq_str_true in Hty. subst a0. cbn [In]. rewrite IH.
      split; [intros [<- | [Hin Hg]]; auto | intros [[<- | Hin] Hg]; auto].
    + cbn [In]. rewrite IH. split; [intros [Hin Hg]; auto|].
      intros [[<- | Hin] Hg]; [|auto].
      rewrite E in Hg. injection Hg as ->. cbn in Hty.
      destruct (string_dec "Run" "Run"); congruence.
Qed.

Lemma keep_runs_total (activities : list pyval) :
  Forall is_dict activities -> exists runs, keep_runs activities = Ok runs.
Proof.
  induction 1 as [|a rest [d ->] _ [runs IH]].
  - now exists [].
  - cbn [keep_runs py_get mbind result_bind rbind]. rewrite IH.
    cbn [mbind result_bind rbind]. eauto.
Qed.

Section Fetch.
Context `{!Runtime}.
Variable env : session.

End Fetch.

(* ------------------------------------------------------------------ *)
(** ** Goal recomputation *)

Lemma selectbox_in {A} (options : list A) (index : nat) (pick : option A) (a : A) :
  selectbox options index pick = Ok a ->
  (forall p, pick = Some p -> In p options) -> In a options.
Proof.
  unfold selectbox. destruct (options !! index) as [shown|] eqn:Hl; cbn; [|discriminate].
  intros [= <-] Hp. destruct pick as [p|]; cbn; [now apply Hp|].
  apply list_elem_of_In. eapply list_elem_of_lookup_2. exact Hl.
Qed.

Lemma race_distance_table :
  race_distance_km "5K" = Some 5%Q /\
  race_distance_km "10K" = Some 10%Q /\
  race_distance_km "Half Marathon" = Some 21.0975%Q /\
  race_distance_km "Marathon" = Some 42.195%Q.
Proof. repeat split. Qed.

Section Goal.
Context `{!Runtime}.
Variable env : session.

Lemma sidebar_race_type (goal_data : pyval) rt tt rd rpw :
  sidebar env goal_data = Ok (rt, tt, rd, rpw) -> In rt RACE_OPTIONS.
Proof.
  unfold sidebar. intros Hsb.
  bind_ok Hsb. bind_ok Hsb.
  match goal with
  | Hs : selectbox RACE_OPTIONS _ _ = Ok ?r |- _ =>
      assert (Hin : In r RACE_OPTIONS);
      [eapply selectbox_in; [exact Hs|]; intros p Hp;
       destruct (pick_race_type env) as [[]|]; cbn in Hp; inversion Hp; cbn; auto|]
  end.
  repeat bind_ok Hsb.
  now inversion Hsb; subst.
Qed.

Lemma target_pace_invalid (target_time_str race_type : string) :
  strptime_hms target_time_str = None ->
  target_pace target_time_str race_type = (PNone, "Invalid format!"%string).
Proof.
  intros Hp. unfold target_pace, parse_target_pace. now rewrite Hp.
Qed.

Lemma target_pace_valid (target_time_str race_type : string) (hour minute second : Z) :
  In race_type RACE_OPTIONS ->
  strptime_hms target_time_str = Some (hour, minute, second) ->
  exists (km : Q) (shown : string),
    race_distance_km race_type = Some km /\
    target_pace target_time_str race_type =
      (PFloat (FFin (inject_Z (hour * 3600 + minute * 60 + second) / km)), shown).
Proof.
  intros Hin Hp. unfold target_pace, parse_target_pace. rewrite Hp.
  cbn [of_option mbind result_bind rbind].
  set (total := (hour * 3600 + minute * 60 + second)%Z).
  assert (Hk : exists (v : pyval) (km : Q),
             assoc race_type RACE_DISTANCES = Some v /\ as_float v = Some (FFin km) /\
             Qeq_bool km 0 = false).
  { cbn in Hin.
    destruct Hin as [<- | [<- | [<- | [<- | []]]]]; eexists; eexists;
      (split; [reflexivity | split; reflexivity]). }
  destruct Hk as (v & km & Hv & Hf & Hnz).
  destruct (seconds_to_pace_total (inject_Z total / km)) as [shown Hshown].
  exists km, shown. unfold race_distance_km. rewrite Hv, Hf.
  split; [reflexivity|].
  cbn [of_option mbind result_bind rbind]. unfold py_truediv.
  rewrite Hf. cbn [as_float fdiv]. rewrite Hnz.
  cbn [mbind result_bind rbind]. now rewrite Hshown.
Qed.

(** What a completed goal stage did. *)
Lemma goal_stage_done (w w' : world) (g : goal) :
  goal_stage env w = (w', Done g) ->
  exists (goal_data : pyval) (race_type target_time_str : string)
         (race_date : date) (runs_per_week : Z),
    load_goal (files w) = Ok goal_data /\
    sidebar env goal_data = Ok (race_type, target_time_str, race_date, runs_per_week) /\
    g = current_goal race_type target_time_str race_date runs_per_week /\
    w' = mkworld (save_goal (goal_dict g) (files w))
                 (screen w ++ [Header "🏁 Set Your Goal"]).
Proof.
  unfold goal_stage. intros Hg.
  apply M_bind_done in Hg as (goal_data & w1 & Hload & Hg).
  apply lift_done in Hload as [Hload ->].
  apply M_bind_done in Hg as ([] & w2 & Hemit & Hg).
  apply emit_done in Hemit as ->.
  apply M_bind_done in Hg as ([[[rt tt] rd] rpw] & w3 & Hside & Hg).
  apply lift_done in Hside as [Hside ->].
  apply M_bind_done in Hg as ([] & w4 & Hsave & Hg).
  unfold with_files in Hsave. injection Hsave as <-.
  injection Hg as <- <-.
  exists goal_data, rt, tt, rd, rpw. repeat split; assumption.
Qed.

Lemma current_goal_fields (race_type target_time_str : string) (race_date : date)
    (runs_per_week : Z) :
  let g := current_goal race_type target_time_str race_date runs_per_week in
  g_race_type g = race_type /\ g_target_time g = target_time_str /\
  g_target_pace_sec g = fst (target_pace target_time_str race_type).
Proof.
  unfold current_goal. destruct (target_pace target_time_str race_type). now cbn.
Qed.

(** C8.  Whenever the load-recompute-save stage completes, the goal file
    holds the record just built, the next load returns it, and its target
    pace is the total of the target time in seconds divided by the
    distance of its race type (5, 10, 21.0975 or 42.195 km), or [None]
    when the target time does not parse: it is a function of the record's
    own target time and race type, whatever the loaded file held. *)
Theorem goal_stage_persists (w w' : world) (g : goal) :
  goal_stage env w = (w', Done g) ->
  files w' !! GOAL_FILE = Some (json_dumps (goal_dict g)) /\
  load_goal (files w') = Ok (goal_dict g) /\
  exists km : Q,
    In (g_race_type g, km)
       [("5K", 5%Q); ("10K", 10%Q); ("Half Marathon", 21.0975%Q);
        ("Marathon", 42.195%Q)] /\
    race_distance_km (g_race_type g) = Some km /\
    g_target_pace_sec g =
      match strptime_hms (g_target_time g) with
      | Some (hour, minute, second) =>
          PFloat (FFin (inject_Z (hour * 3600 + minute * 60 + second) / km))
      | None => PNone
      end.
Proof.
  intros Hg.
  apply goal_stage_done in Hg as (goal_data & rt & tt & rd & rpw & _ & Hside & Hgoal & ->).
  pose proof (sidebar_race_type _ _ _ _ _ Hside) as Hin.
  destruct (current_goal_fields rt tt rd rpw) as (Hrt & Htt & Hpace).
  rewrite <- Hgoal in Hrt, Htt, Hpace.
  assert (Hkm : exists km : Q,
    In (g_race_type g, km)
       [("5K", 5%Q); ("10K", 10%Q); ("Half Marathon", 21.0975%Q);
        ("Marathon", 42.195%Q)] /\
    race_distance_km (g_race_type g) = Some km /\
    g_target_pace_sec g =
      match strptime_hms (g_target_time g) with
      | Some (hour, minute, second) =>
          PFloat (FFin (inject_Z (hour * 3600 + minute * 60 + second) / km))
      | None => PNone
      end).
  { rewrite Hrt, Htt, Hpace.
    destruct (strptime_hms tt) as [[[hour minute] second]|] eqn:Hparse.
    - destruct (target_pace_valid tt rt hour minute second Hin Hparse)
        as (km & shown & Hkm & Hpace').
      exists km. rewrite Hpace'. split; [|split; [assumption | reflexivity]].
      cbn in Hin. destruct Hin as [<- | [<- | [<- | [<- | []]]]];
        injection Hkm as <-; cbn; auto.
    - rewrite (target_pace_invalid tt rt Hparse).
      cbn in Hin. destruct Hin as [<- | [<- | [<- | [<- | []]]]];
        eexists; (split; [|split; reflexivity]); cbn; eauto. }
  cbn [files]. split; [|split; [|exact Hkm]].
  - unfold save_goal. apply lookup_insert_eq.
  - apply (load_after_save (goal_dict g) (files w)); [|reflexivity].
    exists g, (goal_items g). split; [reflexivity|]. split; [reflexivity|].
    destruct Hkm as (km & _ & _ & Hp). rewrite Hp.
    destruct (strptime_hms (g_target_time g)) as [[[hour minute] second]|].
    + right. right. eexists. split; [reflexivity|discriminate].
    + now left.
Qed.

Lemma main_stage_degraded (g : goal) (w : world) :
  g_target_pace_sec g = PNone -> snd (main_stage env g w) <> Done tt.
Proof.
  intros Hp Hdone. destruct (main_stage env g w) as [w' o] eqn:Hm.
  cbn in Hdone. subst o. unfold main_stage in Hm.
  do 10 (apply M_bind_done in Hm as (? & ? & ? & Hm)).
  apply M_bind_done in Hm as (y & ? & Hy & Hm).
  apply lift_done in Hy as [Hy _]. rewrite Hp in Hy. discriminate.
Qed.
End Goal.

(* ------------------------------------------------------------------ *)
(** ** The render pass on sample sessions *)

(** C3.  A target time that does not parse gives the degraded goal, and it
    is saved; with one run fetched the render then stops with a
    [TypeError] at the pace chart, where the undefined target pace is
    divided by 60.  The same session with a valid target time runs to the
    end. *)
Theorem render_invalid_target_time :
  target_pace "abc" "Half Marathon" = (PNone, "Invalid format!"%string) /\
  load_goal (files (fst (render (sample_session 200 "abc") empty_world)))
    = Ok (goal_dict degraded_goal) /\
  snd (render (sample_session 200 "abc") empty_world) = Failed TypeError /\
  last (screen (fst (render (sample_session 200 "abc") empty_world)))
    = Some (Subheader "📈 Pace Trend Over Last 12 Weeks") /\
  snd (render (sample_session 200 "0:25:00") empty_world) = Done tt.
Proof. repeat split; vm_compute; reflexivity. Qed.



Lemma goal_stage_persists_witness :
  load_goal (files (fst (goal_stage untouched_session edited_world)))
    = Ok (goal_dict recomputed_goal) /\
  g_target_pace_sec recomputed_goal = PFloat (FFin (inject_Z 3000 / 10)).
Proof.
  assert (Hrun : goal_stage untouched_session edited_world
                 = (fst (goal_stage untouched_session edited_world), Done recomputed_goal))
    by (vm_compute; reflexivity).
  destruct (goal_stage_persists untouched_session edited_world _ recomputed_goal Hrun)
    as (_ & Hload & _).
  split; [exact Hload | reflexivity].
Defined.

(* ------------------------------------------------------------------ *)
(** * Further properties of the code *)

(** ** The goal file *)

Section StoreLast.
Context `{!Runtime}.

(** X1.  [save_goal] overwrites: after two saves the file holds the second
    goal only, a load returns it, the first save has left no trace, and no
    file of another name has changed (lines 23-32). *)
Theorem save_goal_last_writer (g1 g2 : pyval) (fs : gmap string string) :
  well_formed_goal g2 ->
  load_goal (save_goal g2 (save_goal g1 fs)) = Ok g2 /\
  save_goal g2 (save_goal g1 fs) = save_goal g2 fs /\
  (forall path : string, path <> GOAL_FILE ->
     save_goal g2 (save_goal g1 fs) !! path = fs !! path).
Proof.
  intros Hwf. split; [|split].
  - now apply (load_after_save g2 (save_goal g1 fs)).
  - unfold save_goal. apply insert_insert_eq.
  - intros path Hne. unfold save_goal.
    rewrite !lookup_insert_ne by congruence. reflexivity.
Qed.
End StoreLast.

Lemma save_goal_last_writer_witness :
  load_goal (save_goal (goal_dict recomputed_goal) (save_goal (goal_dict sample_goal) ∅))
    = Ok (goal_dict recomputed_goal).
Proof.
  apply (save_goal_last_writer (goal_dict sample_goal) (goal_dict recomputed_goal) ∅).
  exists recomputed_goal, (goal_items recomputed_goal). split; [reflexivity|].
  split; [reflexivity|]. right. right. eexists. split; [reflexivity|discriminate].
Defined.

(** ** Paces *)



Lemma Qfloor_unique (x : Q) (n : Z) :
  (inject_Z n <= x)%Q -> (x < inject_Z (n + 1))%Q -> Qfloor x = n.
Proof.
  intros Hlo Hhi. apply Z.le_antisymm.
  - pose proof (Qfloor_le x) as Hf.
    assert (Hlt : (inject_Z (Qfloor x) < inject_Z (n + 1))%Q) by lra.
    rewrite <- Zlt_Qlt in Hlt. lia.
  - rewrite <- (Qfloor_Z n). now apply Qfloor_resp_le.
Qed.

Lemma Qfloor_sub_Z (x : Q) (z : Z) : Qfloor (x - inject_Z z) = (Qfloor x - z)%Z.
Proof.
  apply Qfloor_unique.
  - pose proof (Qfloor_le x). unfold Z.sub. rewrite inject_Z_plus, inject_Z_opp. lra.
  - pose proof (Qlt_floor x) as Hlt.
    replace (Qfloor x - z + 1)%Z with ((Qfloor x + 1) + - z)%Z by lia.
    rewrite inject_Z_plus, inject_Z_opp. lra.
Qed.

Lemma seconds_to_pace_floor (sec_per_km : pyval) (q : Q) :
  as_float sec_per_km = Some (FFin q) -> (0 <= q)%Q -> ~ (q == 0)%Q ->
  exists minutes seconds : Z,
    seconds_to_pace sec_per_km =
      Ok (str_of_Z minutes +:+ ":" +:+ format_02d seconds +:+ " min/km") /\
    (0 <= seconds < 60)%Z /\
    (60 * minutes + seconds)%Z = Qfloor q.
Proof.
  intros Hs Hq Hnz.
  destruct (floordiv60_bounds q Hq) as (Hm & Hlo & Hhi).
  exists (Qfloor (q / 60)), (Qfloor (q - 60 * inject_Z (Qfloor (q / 60)))).
  split; [|split].
  - rewrite (seconds_to_pace_finite sec_per_km q Hs Hnz). unfold py_int.
    apply Qle_bool_iff in Hlo. now rewrite Hlo.
  - now apply Qfloor_range.
  - assert (Heq : (q - 60 * inject_Z (Qfloor (q / 60))
                   == q - inject_Z (60 * Qfloor (q / 60)))%Q).
    { rewrite inject_Z_mult. reflexivity. }
    rewrite (Qfloor_comp _ _ Heq), Qfloor_sub_Z. lia.
Qed.



(** X4.  For a positive whole number [n] of seconds per kilometre the text
    is the integer quotient and remainder by 60:
    "{n // 60}:{n % 60:02d} min/km" (lines 50-55). *)
Theorem seconds_to_pace_int (n : Z) :
  (0 < n)%Z ->
  seconds_to_pace (PInt n) =
    Ok (str_of_Z (n / 60) +:+ ":" +:+ format_02d (n mod 60) +:+ " min/km").
Proof.
  intros Hn.
  assert (Hq : (0 <= inject_Z n)%Q) by (unfold Qle; cbn; lia).
  assert (Hnz : ~ (inject_Z n == 0)%Q).
  { intros Hc. unfold Qeq in Hc. cbn in Hc. lia. }
  destruct (seconds_to_pace_floor (PInt n) (inject_Z n) eq_refl Hq Hnz)
    as (m & s & Heq & Hs & Hsum).
  rewrite Qfloor_Z in Hsum. rewrite Heq.
  assert (Hm : m = (n / 60)%Z) by (apply (Z.div_unique n 60 m s); lia).
  assert (Hs' : s = (n mod 60)%Z) by (apply (Z.mod_unique n 60 m s); lia).
  now rewrite Hm, Hs'.
Qed.

Lemma seconds_to_pace_int_witness :
  seconds_to_pace (PInt 299) = Ok "4:59 min/km"%string.
Proof. apply (seconds_to_pace_int 299). reflexivity. Defined.

(** ** The training plan *)

Lemma week_body_thresholds (weeks_left a b week : Z) :
  ((4 <= a)%Z <-> (4 <= b)%Z) -> ((5 <= a)%Z <-> (5 <= b)%Z) ->
  week_body weeks_left a week = week_body weeks_left b week.
Proof.
  intros H4 H5. unfold week_body.
  assert (E4 : (4 <=? a)%Z = (4 <=? b)%Z).
  { destruct (Z.leb_spec 4 a), (Z.leb_spec 4 b); try reflexivity; lia. }
  assert (E5 : (5 <=? a)%Z = (5 <=? b)%Z).
  { destruct (Z.leb_spec 5 a), (Z.leb_spec 5 b); try reflexivity; lia. }
  now rewrite E4, E5.
Qed.

Lemma week_body_size (weeks_left runs_per_week week : Z) :
  (1 <= length (week_body weeks_left runs_per_week week) <= 4)%nat.
Proof.
  unfold week_body.
  destruct (week =? _)%Z, (4 <=? runs_per_week)%Z, (5 <=? runs_per_week)%Z; cbn; lia.
Qed.

(** X5.  The plan depends on the number of runs per week only through the
    two comparisons [>= 4] and [>= 5]: two values on the same side of both
    thresholds give the same plan, so 5 and 6 runs a week are planned alike,
    and so are 1, 2 and 3 (lines 57-74). *)
Theorem plan_depends_on_thresholds (today race_day : date) (a b : Z) :
  ((4 <= a)%Z <-> (4 <= b)%Z) -> ((5 <= a)%Z <-> (5 <= b)%Z) ->
  generate_training_plan today race_day a = generate_training_plan today race_day b.
Proof.
  intros H4 H5. unfold generate_training_plan.
  destruct (_ <? 2)%Z; [reflexivity|].
  rewrite !(fold_left_snoc (fun week => PList (week_body _ _ week))).
  f_equal. f_equal. apply map_ext. intros week. f_equal.
  now apply week_body_thresholds.
Qed.

Lemma plan_depends_on_thresholds_witness :
  generate_training_plan (mkdate 2025 3 1) (mkdate 2025 3 22) 5
  = generate_training_plan (mkdate 2025 3 1) (mkdate 2025 3 22) 6.
Proof.
  apply (plan_depends_on_thresholds (mkdate 2025 3 1) (mkdate 2025 3 22) 5 6); lia.
Defined.

(** X6.  Every week of a plan that is a list holds between one and four
    workouts, whatever number of runs per week was asked for
    (lines 57-74). *)
Theorem plan_week_sizes (today race_day : date) (runs_per_week : Z)
    (plan : list pyval) (week : list pyval) :
  generate_training_plan today race_day runs_per_week = PList plan ->
  In (PList week) plan ->
  (1 <= length week <= 4)%nat.
Proof.
  unfold generate_training_plan. destruct (_ <? 2)%Z.
  - intros [= <-] [Hc | []]. discriminate.
  - rewrite (fold_left_snoc (fun week => PList (week_body _ runs_per_week week))).
    intros [= <-] Hin. cbn in Hin. apply in_map_iff in Hin as (w & [= <-] & _).
    apply week_body_size.
Qed.

Lemma plan_week_sizes_witness :
  (1 <= length [PStr TAPER] <= 4)%nat.
Proof.
  apply (plan_week_sizes (mkdate 2025 3 1) (mkdate 2025 3 22) 5
           [PList (regular_week 5 0); PList (regular_week 5 1); PList [PStr TAPER]]).
  - vm_compute. reflexivity.
  - right. right. left. reflexivity.
Defined.

(** ** The analyst *)

(** X7.  A readiness question (one that mentions "ready" or "close" and not
    "pace") raises [TypeError] when the goal holds no target pace, which is
    the goal of an invalid target time; and over an empty table of runs it
    gets the "behind" answer, the mean of no paces being NaN, which is not
    below any target (lines 76-89). *)
Theorem analyst_readiness_edges (question : string) (goal_data : goal)
    (recent_runs_df : list run_row) :
  ~ mentions "pace" question ->
  mentions "ready" question \/ mentions "close" question ->
  (as_float (g_target_pace_sec goal_data) = None ->
   ai_analyst_response question goal_data recent_runs_df = Raise TypeError) /\
  (recent_runs_df = [] -> as_float (g_target_pace_sec goal_data) <> None ->
   ai_analyst_response question goal_data recent_runs_df = Ok BEHIND).
Proof.
  intros Hp Hrc. unfold ai_analyst_response.
  apply not_mentions_iff in Hp. rewrite Hp.
  assert (Hb : contains "ready" (lower question)
               || contains "close" (lower question) = true).
  { apply orb_true_iff. destruct Hrc as [Hr|Hc]; [left|right]; now apply mentions_iff. }
  rewrite Hb. unfold py_lt. split.
  - intros ->. reflexivity.
  - intros -> Ht. destruct (as_float (g_target_pace_sec goal_data)); [|congruence].
    reflexivity.
Qed.

Lemma analyst_readiness_edges_witness :
  ai_analyst_response "Am I ready?" degraded_goal sample_runs = Raise TypeError /\
  ai_analyst_response "Am I ready?" sample_goal [] = Ok BEHIND.
Proof.
  split.
  - apply (analyst_readiness_edges "Am I ready?" degraded_goal sample_runs);
      [apply not_mentions_iff; reflexivity | left; apply mentions_iff; reflexivity
      | reflexivity].
  - apply (analyst_readiness_edges "Am I ready?" sample_goal []);
      [apply not_mentions_iff; reflexivity | left; apply mentions_iff; reflexivity
      | reflexivity | discriminate].
Defined.


(** ** The training load *)

(** X8.  The value given to the progress bar is a number between 0 and 1
    for every count of long runs and every race date: the ratio of long runs
    to [max(1, weeks_to_race)] while it is below 1, and 1 from there on.  The
    [max] makes the divisor at least 1, so a race date in the past or in the
    coming week divides by 1 and never by zero (lines 214-219). *)
Theorem training_load_bounds (completed_long_runs : nat) (weeks_to_race : Z) :
  exists x : Q,
    training_load completed_long_runs weeks_to_race = Ok (FFin x) /\
    (0 <= x)%Q /\ (x <= 1)%Q /\
    ((Z.of_nat completed_long_runs < Z.max 1 weeks_to_race)%Z ->
       x = (inject_Z (Z.of_nat completed_long_runs) / inject_Z (Z.max 1 weeks_to_race))%Q) /\
    ((Z.max 1 weeks_to_race <= Z.of_nat completed_long_runs)%Z -> x = 1%Q).
Proof.
  unfold training_load, py_truediv. cbn [as_float fdiv].
  set (n := Z.of_nat completed_long_runs). set (e := Z.max 1 weeks_to_race).
  assert (He : (1 <= e)%Z) by (unfold e; lia).
  assert (Hn : (0 <= n)%Z) by (unfold n; lia).
  assert (Hez : Qeq_bool (inject_Z e) 0 = false).
  { apply Qeq_bool_false_iff. intros Hc. unfold Qeq in Hc. cbn in Hc. lia. }
  rewrite Hez. cbn [mbind result_bind rbind flt].
  assert (Hepos : (0 < inject_Z e)%Q) by (unfold Qlt; cbn; lia).
  assert (Hnq : (0 <= inject_Z n)%Q) by (unfold Qle; cbn; lia).
  assert (Hr0 : (0 <= inject_Z n / inject_Z e)%Q).
  { apply Qle_shift_div_l; [assumption|]. lra. }
  destruct (Qle_bool 1 (inject_Z n / inject_Z e)) eqn:Hc; cbn [negb].
  - apply Qle_bool_iff in Hc.
    exists 1%Q. split; [reflexivity|]. split; [lra|]. split; [lra|]. split; [|reflexivity].
    intros Hlt. exfalso.
    assert (Hr : (inject_Z n / inject_Z e < 1)%Q).
    { apply Qlt_shift_div_r; [assumption|]. rewrite Qmult_1_l. now rewrite <- Zlt_Qlt. }
    lra.
  - apply Qle_bool_false_iff in Hc.
    eexists. split; [reflexivity|]. split; [assumption|]. split; [lra|].
    split; [reflexivity|]. intros Hle. exfalso.
    assert (Hr : (1 <= inject_Z n / inject_Z e)%Q).
    { apply Qle_shift_div_l; [assumption|]. rewrite Qmult_1_l. now rewrite <- Zle_Qle. }
    lra.
Qed.

(** ** The sidebar *)

Lemma bind_lift {A B} (r : result A) (k : A -> M B) (w : world) :
  (lift r ≫= k) w = match r with Ok a => k a w | Raise e => (w, Failed e) end.
Proof. unfold mbind, M_bind, Mbind, lift. now destruct r. Qed.

Lemma bind_read_files {A B} (f : gmap string string -> result A) (k : A -> M B)
    (w : world) :
  (read_files f ≫= k) w =
    match f (files w) with Ok a => k a w | Raise e => (w, Failed e) end.
Proof. unfold mbind, M_bind, Mbind, read_files, lift. now destruct (f (files w)). Qed.

Lemma bind_emit {B} (e : element) (k : unit -> M B) (w : world) :
  (emit e ≫= k) w = k tt (mkworld (files w) (screen w ++ [e])).
Proof. reflexivity. Qed.

Lemma bind_done {A B} (m : M A) (k : A -> M B) (w : world) (w1 : world) (a : A) :
  m w = (w1, Done a) -> (m ≫= k) w = k a w1.
Proof. intros Hm. unfold mbind, M_bind, Mbind. now rewrite Hm. Qed.

Section GoalPass.
Context `{!Runtime}.
Variable env : session.

Lemma goal_stage_unfold (w : world) (goal_data : pyval) :
  load_goal (files w) = Ok goal_data ->
  goal_stage env w =
    match sidebar env goal_data with
    | Ok (race_type, target_time_str, race_date, runs_per_week) =>
        let g := current_goal race_type target_time_str race_date runs_per_week in
        (mkworld (save_goal (goal_dict g) (files w)) (screen w ++ [HEADER]), Done g)
    | Raise e => (mkworld (files w) (screen w ++ [HEADER]), Failed e)
    end.
Proof.
  intros Hload. unfold goal_stage.
  rewrite bind_read_files, Hload, bind_emit, bind_lift.
  destruct (sidebar env goal_data) as [[[[rt tt] rd] rpw]|e]; reflexivity.
Qed.

(** X9.  On a first run, when the goal file is missing or holds a falsy
    value, the sidebar starts from the defaults "Half Marathon", "1:45:00",
    today + 30 days and 4 runs a week, each replaced by what the user chose;
    the goal made of them is written to the goal file and the render goes
    on with it (lines 96-132). *)
Theorem first_run_defaults (w : world) (goal_data : pyval) :
  load_goal (files w) = Ok goal_data ->
  py_truthy goal_data = false ->
  goal_stage env w =
    (mkworld (save_goal (goal_dict (first_run_goal env)) (files w))
             (screen w ++ [HEADER]),
     Done (first_run_goal env)).
Proof.
  intros Hload Hfalse. rewrite (goal_stage_unfold w goal_data Hload).
  unfold sidebar. rewrite Hfalse. unfold first_run_goal.
  destruct (pick_race_type env), (pick_runs_per_week env); reflexivity.
Qed.

(** X10.  A goal file that decodes to something other than a usable goal
    ends the render in the sidebar, before anything is saved: a truthy value
    that is not a dict raises [TypeError], a dict without "race_type" raises
    [KeyError], and a race type outside the four options raises
    [ValueError]; the file is left as it was and only the sidebar header is
    on the page (lines 96-110). *)
Theorem malformed_goal_file (w : world) (goal_data : pyval) :
  load_goal (files w) = Ok goal_data ->
  py_truthy goal_data = true ->
  ((forall d, goal_data <> PDict d) ->
   goal_stage env w = (mkworld (files w) (screen w ++ [HEADER]), Failed TypeError)) /\
  (forall d, goal_data = PDict d -> assoc "race_type" d = None ->
   goal_stage env w = (mkworld (files w) (screen w ++ [HEADER]), Failed KeyError)) /\
  (forall d v, goal_data = PDict d -> assoc "race_type" d = Some v ->
   ~ In v (map PStr RACE_OPTIONS) ->
   goal_stage env w = (mkworld (files w) (screen w ++ [HEADER]), Failed ValueError)).
Proof.
  intros Hload Htrue. rewrite (goal_stage_unfold w goal_data Hload).
  unfold sidebar. rewrite Htrue. split; [|split].
  - intros Hnd. destruct goal_data; try reflexivity. now destruct (Hnd d).
  - intros d -> Hk. cbn [py_getitem]. now rewrite Hk.
  - intros d v -> Hk Hv. cbn [py_getitem]. rewrite Hk.
    cbn [of_option mbind result_bind rbind].
    assert (Hi : index_str RACE_OPTIONS v = Raise ValueError).
    { unfold index_str. destruct v; try reflexivity.
      cbn. cbn in Hv.
      repeat (destruct (string_dec s _) as [->|_]; [exfalso; apply Hv; tauto|]).
      reflexivity. }
    now rewrite Hi.
Qed.

Lemma parse_target_pace_shown (target_time_str race_type : string)
    (pace : pyval) (shown : string) :
  parse_target_pace target_time_str race_type = Ok (pace, shown) ->
  seconds_to_pace pace = Ok shown.
Proof.
  unfold parse_target_pace. intros Hp.
  bind_ok Hp. destruct a as [[hour minute] second].
  bind_ok Hp. bind_ok Hp. bind_ok Hp. now injection Hp as <- <-.
Qed.

(** X11.  The two pace fields of the goal never disagree: after the sidebar
    stage either the formatted pace is exactly [seconds_to_pace] of the
    stored number of seconds, or the number is [None] and the text is
    "Invalid format!" (lines 112-131). *)
Theorem goal_fields_agree (w w' : world) (g : goal) :
  goal_stage env w = (w', Done g) ->
  seconds_to_pace (g_target_pace_sec g) = Ok (g_target_pace_formatted g) \/
  (g_target_pace_sec g = PNone /\
   g_target_pace_formatted g = "Invalid format!"%string).
Proof.
  intros Hg.
  apply goal_stage_done in Hg as (goal_data & rt & tt & rd & rpw & _ & _ & -> & _).
  unfold current_goal, target_pace.
  destruct (parse_target_pace tt rt) as [[pace shown]|e] eqn:Hp; cbn.
  - left. eapply parse_target_pace_shown. exact Hp.
  - right. split; reflexivity.
Qed.
End GoalPass.

Lemma first_run_defaults_witness :
  goal_stage untouched_session empty_world
  = (mkworld (save_goal (goal_dict (first_run_goal untouched_session)) ∅) [HEADER],
     Done (first_run_goal untouched_session)).
Proof.
  apply (first_run_defaults untouched_session empty_world PNone); reflexivity.
Defined.

Lemma malformed_goal_file_witness :
  goal_stage untouched_session list_world
  = (mkworld (files list_world) [HEADER], Failed TypeError).
Proof.
  assert (Hload : load_goal (files list_world) = Ok (PList [PInt 1]))
    by (vm_compute; reflexivity).
  apply (proj1 (malformed_goal_file untouched_session _ _ Hload eq_refl)).
  intros d. discriminate.
Defined.

Lemma goal_fields_agree_witness :
  seconds_to_pace (g_target_pace_sec recomputed_goal)
    = Ok (g_target_pace_formatted recomputed_goal) \/
  (g_target_pace_sec recomputed_goal = PNone /\
   g_target_pace_formatted recomputed_goal = "Invalid format!"%string).
Proof.
  apply (goal_fields_agree untouched_session edited_world
           (fst (goal_stage untouched_session edited_world)) recomputed_goal).
  vm_compute. reflexivity.
Defined.

Section Stable.
Context `{!Runtime}.

Lemma sidebar_runs_per_week (env : session) (goal_data : pyval) rt tt rd rpw :
  sidebar env goal_data = Ok (rt, tt, rd, rpw) -> In rpw RPW_OPTIONS.
Proof.
  unfold sidebar. intros Hsb.
  do 6 bind_ok Hsb.
  match goal with
  | Hs : selectbox RPW_OPTIONS _ _ = Ok ?r |- _ =>
      assert (Hin : In r RPW_OPTIONS);
      [eapply selectbox_in; [exact Hs|]; intros p Hp;
       destruct (pick_runs_per_week env) as [[]|]; cbn in Hp; inversion Hp; cbn; auto|]
  end.
  now inversion Hsb; subst.
Qed.

Lemma current_goal_rest (race_type target_time_str : string) (race_date : date)
    (runs_per_week : Z) :
  let g := current_goal race_type target_time_str race_date runs_per_week in
  g_race_date g = date_str race_date /\ g_runs_per_week g = runs_per_week.
Proof.
  unfold current_goal. destruct (target_pace target_time_str race_type). now cbn.
Qed.

Lemma current_goal_well_formed (race_type target_time_str : string) (race_date : date)
    (runs_per_week : Z) :
  In race_type RACE_OPTIONS ->
  well_formed_goal
    (goal_dict (current_goal race_type target_time_str race_date runs_per_week)).
Proof.
  intros Hin.
  exists (current_goal race_type target_time_str race_date runs_per_week),
         (goal_items (current_goal race_type target_time_str race_date runs_per_week)).
  split; [reflexivity|]. split; [reflexivity|].
  destruct (current_goal_fields race_type target_time_str race_date runs_per_week)
    as (_ & _ & ->).
  destruct (strptime_hms target_time_str) as [[[hour minute] second]|] eqn:Hp.
  - destruct (target_pace_valid _ _ _ _ _ Hin Hp) as (km & shown & _ & ->).
    right. right. eexists. split; [reflexivity|discriminate].
  - rewrite (target_pace_invalid _ race_type Hp). now left.
Qed.

(** X12.  The saved goal is a fixed point of the sidebar stage: a render
    in which no widget is touched, started from the files a render left
    behind, reads the goal back, shows the same values, computes the same
    goal and writes the same file again, as long as the stored race date
    parses back to the date it was printed from (lines 96-132). *)
Theorem goal_stage_stable (env0 env : session) (w w1 : world) (g : goal) (rd : date) :
  pick_race_type env = None -> input_target_time env = None ->
  pick_race_date env = None -> pick_runs_per_week env = None ->
  goal_stage env0 w = (w1, Done g) ->
  strptime_ymd (g_race_date g) = Some rd -> date_str rd = g_race_date g ->
  goal_stage env w1 = (mkworld (files w1) (screen w1 ++ [HEADER]), Done g).
Proof.
  intros Hp1 Hp2 Hp3 Hp4 Hg Hparse Hstr.
  apply goal_stage_done in Hg as (gd & rt & tt & rd0 & rpw & _ & Hside & Hgoal & ->).
  pose proof (sidebar_race_type _ _ _ _ _ _ Hside) as Hrt.
  pose proof (sidebar_runs_per_week _ _ _ _ _ _ Hside) as Hrpw.
  destruct (current_goal_fields rt tt rd0 rpw) as (Ert & Ett & _).
  destruct (current_goal_rest rt tt rd0 rpw) as (Erd & Erpw).
  rewrite <- Hgoal in Ert, Ett, Erd, Erpw.
  assert (Hload : load_goal (files (mkworld (save_goal (goal_dict g) (files w))
                                            (screen w ++ [HEADER]))) = Ok (goal_dict g)).
  { cbn [files]. apply (load_after_save (goal_dict g) (files w)); [|reflexivity].
    rewrite Hgoal. now apply current_goal_well_formed. }
  unfold HEADER in *. rewrite (goal_stage_unfold env _ _ Hload). unfold HEADER.
  assert (Hsb : sidebar env (goal_dict g) = Ok (rt, tt, rd, rpw)).
  { unfold sidebar. rewrite Hp1, Hp2, Hp3, Hp4.
    cbn [py_truthy goal_dict py_getitem assoc of_option].
    cbn. rewrite Ert, Ett, Erpw, py_str_str, Hparse.
    cbn in Hrt, Hrpw.
    destruct Hrt as [<- | [<- | [<- | [<- | []]]]];
      destruct Hrpw as [<- | [<- | [<- | [<- | []]]]]; reflexivity. }
  rewrite Hsb. cbv zeta.
  assert (Hsame : current_goal rt tt rd rpw = g).
  { rewrite Hgoal. unfold current_goal. destruct (target_pace tt rt).
    f_equal. rewrite Hstr, Erd. reflexivity. }
  rewrite Hsame. cbn [files screen]. f_equal. f_equal.
  unfold save_goal. apply insert_insert_eq.
Qed.
End Stable.

Lemma goal_stage_stable_witness :
  goal_stage untouched_session (fst (goal_stage untouched_session edited_world))
  = (mkworld (files (fst (goal_stage untouched_session edited_world)))
             (screen (fst (goal_stage untouched_session edited_world)) ++ [HEADER]),
     Done recomputed_goal).
Proof.
  apply (goal_stage_stable untouched_session untouched_session edited_world _
           recomputed_goal (mkdate 2025 6 1)); reflexivity.
Defined.


(** ** The table of runs *)










Lemma well_formed_is_dict (act : pyval) : well_formed_activity act -> is_dict act.
Proof. intros (d & ? & ? & ? & ? & ? & ? & -> & _). now exists d. Qed.

Lemma keep_runs_none (activities : list pyval) :
  Forall is_dict activities ->
  (forall act, In act activities -> py_get act "type" <> Ok (PStr "Run")) ->
  keep_runs activities = Ok [].
Proof.
  intros Hd Hn. destruct (keep_runs_total activities Hd) as [runs Hruns].
  rewrite Hruns. f_equal. destruct runs as [|r runs]; [reflexivity|].
  exfalso. destruct (proj1 (keep_runs_spec _ _ Hruns r) (or_introl eq_refl)) as [Hin Hty].
  exact (Hn r Hin Hty).
Qed.


(** ** The render as a whole *)

Lemma keeps_bind {A B} (m : M A) (k : A -> M B) :
  keeps_files m -> (forall a, keeps_files (k a)) -> keeps_files (m ≫= k).
Proof.
  intros Hm Hk w. unfold mbind, M_bind, Mbind. specialize (Hm w).
  destruct (m w) as [w1 [a|e|]]; cbn in *; try assumption.
  now rewrite Hk.
Qed.

Lemma keeps_lift {A} (r : result A) : keeps_files (lift r).
Proof. now intros w. Qed.

Lemma keeps_emit (e : element) : keeps_files (emit e).
Proof. now intros w. Qed.

Lemma keeps_stop {A} : keeps_files (@st_stop A).
Proof. now intros w. Qed.

Lemma keeps_ret {A} (a : A) : keeps_files (Mret a).
Proof. now intros w. Qed.

Lemma keeps_forM {A} (f : A -> M unit) (l : list A) :
  (forall x, keeps_files (f x)) -> keeps_files (forM_ f l).
Proof.
  intros Hf. induction l as [|x l IH]; [apply keeps_ret|].
  cbn [forM_]. apply (keeps_bind (f x) (fun _ => forM_ f l)); auto.
Qed.


Section RenderExtra.
Context `{!Runtime}.
Variable env : session.

Lemma keeps_fetch (access_token : string) : keeps_files (fetch_activities env access_token).
Proof.
  unfold fetch_activities. apply keeps_bind; [apply keeps_lift|]. intros resp.
  destruct (negb _); [|apply keeps_lift].
  apply keeps_bind; [apply keeps_emit | intros; apply keeps_stop].
Qed.

Lemma keeps_write_week (iw : nat * pyval) : keeps_files (write_week iw).
Proof.
  unfold write_week. apply keeps_bind; [apply keeps_emit|]. intros _.
  apply keeps_bind; [apply keeps_lift|]. intros workouts.
  apply keeps_forM. intros; apply keeps_emit.
Qed.

Lemma keeps_main_stage (g : goal) : keeps_files (main_stage env g).
Proof.
  unfold main_stage.
  repeat first
    [ apply keeps_emit | apply keeps_lift | apply keeps_fetch | apply keeps_ret
    | apply keeps_stop | apply keeps_forM; intros; apply keeps_write_week
    | apply keeps_bind; [|intros ?]
    | match goal with
      | |- keeps_files (match ?x with [] => _ | _ :: _ => _ end) => destruct x
      | |- keeps_files (if ?b then _ else _) => destruct b
      end ].
Qed.

Lemma load_goal_total (fs : gmap string string) : exists v, load_goal fs = Ok v.
Proof.
  unfold load_goal, open_read. destruct (fs !! GOAL_FILE) as [text|]; cbn.
  - unfold json_load. destruct (json_loads text); cbn; eauto.
  - eauto.
Qed.

(** X14.  A render writes no file but the goal file: whatever the inputs
    and however the render ends, every file of another name is afterwards
    what it was before (the whole script; the only write is line 24). *)
Theorem render_writes_only_goal_file (w : world) (path : string) :
  path <> GOAL_FILE ->
  files (fst (render env w)) !! path = files w !! path.
Proof.
  intros Hne. unfold render.
  destruct (load_goal_total (files w)) as [gd Hload].
  pose proof (goal_stage_unfold env w gd Hload) as Hg.
  unfold mbind, M_bind, Mbind.
  destruct (sidebar env gd) as [[[[rt tt] rd] rpw]|e]; rewrite Hg; cbv beta iota zeta.
  - rewrite keeps_main_stage. cbn [files]. unfold save_goal.
    now rewrite lookup_insert_ne by congruence.
  - reflexivity.
Qed.

(** X15.  A failed fetch does not undo the save: when the sidebar stage
    has produced a goal and the service answers with a status other than
    200, the render shows the title and the error and stops, and the goal
    file already holds the new goal (lines 34-42 and 132-143). *)
Theorem failed_fetch_keeps_goal (w w1 : world) (g : goal) (access_token : string)
    (resp : response) :
  goal_stage env w = (w1, Done g) ->
  secrets env !! "access_token" = Some access_token ->
  api env access_token = Ok resp ->
  status_code resp <> 200%Z ->
  render env w =
    (mkworld (files w1)
             (screen w1 ++ [TITLE; ErrorBox (fetch_error (status_code resp))]),
     Stopped) /\
  files w1 !! GOAL_FILE = Some (json_dumps (goal_dict g)).
Proof.
  intros Hg Htok Hapi Hst. split.
  - unfold render. rewrite (bind_done _ _ _ _ _ Hg).
    unfold main_stage. rewrite bind_emit, bind_lift, Htok. cbn [of_option].
    unfold fetch_activities, mbind, M_bind, Mbind, lift, emit, st_stop. rewrite Hapi.
    apply Z.eqb_neq in Hst. rewrite Hst. cbn [negb files screen].
    rewrite <- app_assoc. reflexivity.
  - apply goal_stage_done in Hg as (_ & _ & _ & _ & _ & _ & _ & _ & ->).
    cbn [files]. unfold save_goal. apply lookup_insert_eq.
Qed.

(** X16.  When the service answers 200 with a list of activities none of
    which has type "Run", the main part shows the title and the warning
    "No recent running activities found." and stops: no table, plot, plan
    or analyst follows, and no file changes (lines 136-148). *)
Theorem no_runs_stops (g : goal) (w : world) (access_token : string)
    (resp : response) (activities : list pyval) :
  secrets env !! "access_token" = Some access_token ->
  api env access_token = Ok resp ->
  status_code resp = 200%Z ->
  json_load (body resp) = Ok (PList activities) ->
  Forall is_dict activities ->
  (forall act, In act activities -> py_get act "type" <> Ok (PStr "Run")) ->
  main_stage env g w = (mkworld (files w) (screen w ++ [TITLE; NO_RUNS]), Stopped).
Proof.
  intros Htok Hapi Hst Hbody Hd Hn.
  unfold main_stage. rewrite bind_emit, bind_lift, Htok. cbn [of_option].
  assert (Hf : forall w0, fetch_activities env access_token w0
                          = (w0, Done (PList activities))).
  { intros w0. unfold fetch_activities, mbind, M_bind, Mbind, lift.
    rewrite Hapi, Hst, Hbody. reflexivity. }
  rewrite (bind_done _ _ _ _ _ (Hf _)).
  rewrite bind_lift. cbn [py_iter]. rewrite bind_lift, (keep_runs_none _ Hd Hn).
  unfold mbind, M_bind, Mbind, emit, st_stop. cbn [files screen].
  rewrite <- app_assoc. reflexivity.
Qed.
End RenderExtra.

Lemma no_runs_stops_witness :
  main_stage ride_session sample_goal empty_world
  = (mkworld ∅ [TITLE; NO_RUNS], Stopped).
Proof.
  apply (no_runs_stops ride_session sample_goal empty_world "token"
           (mkresponse 200 (ref_json_dumps (PList [PDict commute_ride])))
           [PDict commute_ride]).
  - reflexivity.
  - reflexivity.
  - reflexivity.
  - vm_compute. reflexivity.
  - repeat constructor. now exists commute_ride.
  - intros act [<- | []]. discriminate.
Defined.

Lemma failed_fetch_keeps_goal_witness :
  render (sample_session 500 "0:25:00") empty_world
  = (mkworld (files (fst (goal_stage (sample_session 500 "0:25:00") empty_world)))
             (screen (fst (goal_stage (sample_session 500 "0:25:00") empty_world))
              ++ [TITLE; ErrorBox (fetch_error 500)]),
     Stopped) /\
  files (fst (goal_stage (sample_session 500 "0:25:00") empty_world)) !! GOAL_FILE
  = Some (json_dumps (goal_dict (first_run_goal (sample_session 500 "0:25:00")))).
Proof.
  apply (failed_fetch_keeps_goal (sample_session 500 "0:25:00") empty_world
           (fst (goal_stage (sample_session 500 "0:25:00") empty_world))
           (first_run_goal (sample_session 500 "0:25:00")) "token"
           (mkresponse 500 (ref_json_dumps sample_activities))).
  - vm_compute. reflexivity.
  - reflexivity.
  - reflexivity.
  - discriminate.
Defined.

Lemma render_writes_only_goal_file_witness :
  files (fst (render (sample_session 200 "0:25:00") noted_world)) !! "notes.txt"
  = files noted_world !! "notes.txt".
Proof.
  apply (render_writes_only_goal_file (sample_session 200 "0:25:00") noted_world
           "notes.txt").
  unfold GOAL_FILE. discriminate.
Defined.

(** ** A render that reaches the end *)








Section Completes.
Context `{!Runtime}.
Variable env : session.



End Completes.

